(** * price: a scraping proxy for exchange rates (main.py)

    A shallow embedding of [main.py] and the properties of its handlers.

    Conventions of the embedding.
    - A Python [str] is a [string]: a sequence of code points below 256.
      On these, the regular expression class [\d] is [0-9], and the
      white space that [int()] strips is the set given by [is_space].
    - Python integers are [Z].
    - A [dict] with string keys is a [gmap string _].
    - An exception is a value of [exn]; a computation that may raise
      returns a [result].  A computation that talks to the outside
      (HTTP requests, the cache back end, the logger, [asyncio.sleep])
      also produces the list of these [event]s, in order.
    - [async]/[await] is sequential composition; the [@cache] decorator
      of the handlers belongs to an external library and is transparent
      here (a handler is its body). *)

From Stdlib Require Import ZArith Ascii String List Lia Bool.
From stdpp Require Import base option list strings gmap fin_maps.

Local Open Scope string_scope.
Local Open Scope Z_scope.

(** ** Characters and strings *)

Module Str.

Definition code (c : ascii) : Z := Z.of_N (N_of_ascii c).

Definition chr (n : Z) : ascii := ascii_of_N (Z.to_N n).

Definition in_range (lo hi : ascii) (c : ascii) : bool :=
  (code lo <=? code c) && (code c <=? code hi).

Definition is_char (x : ascii) (c : ascii) : bool := code x =? code c.

(** [\d] on code points below 256. *)
Definition is_digit (c : ascii) : bool := in_range "0" "9" c.

Definition digit_val (c : ascii) : Z := code c - 48.

(** The white space that [int()] skips, on code points below 256:
    TAB..CR and SPACE, and the two non-ASCII spaces NEL and NBSP (which
    [int()] first rewrites to a space; FS..US are left as they are and
    are not skipped). *)
Definition is_space (c : ascii) : bool :=
  let n := code c in
  ((9 <=? n) && (n <=? 13)) || (n =? 32) || (n =? 133) || (n =? 160).

(** [str.lower] on code points below 256: A-Z and the Latin-1 capitals
    (all of U+00C0..U+00DE but the multiplication sign) move up by 32. *)
Definition lower_char (c : ascii) : ascii :=
  let n := code c in
  if ((65 <=? n) && (n <=? 90))
     || ((192 <=? n) && (n <=? 222) && negb (n =? 215))
  then chr (n + 32) else c.

Fixpoint lower (s : string) : string :=
  match s with
  | EmptyString => EmptyString
  | String c r => String (lower_char c) (lower r)
  end.

Fixpoint to_list (s : string) : list ascii :=
  match s with
  | EmptyString => []
  | String c r => c :: to_list r
  end.

Fixpoint of_list (l : list ascii) : string :=
  match l with
  | [] => EmptyString
  | c :: r => String c (of_list r)
  end.

(** [s.startswith(p)] *)
Fixpoint startswith (p s : string) : bool :=
  match p, s with
  | EmptyString, _ => true
  | String a p', String b s' => is_char a b && startswith p' s'
  | String _ _, EmptyString => false
  end.

End Str.

(** ** The built-in [int(str)] in base 10

    Grammar: white space, an optional sign, digits in groups separated
    by single underscores, white space.  A literal of more than
    [max_str_digits] digits is refused. *)

Module PyInt.
Import Str.

Definition max_str_digits : Z := 4300.

Fixpoint lstrip (l : list ascii) : list ascii :=
  match l with
  | c :: r => if is_space c then lstrip r else l
  | [] => []
  end.

Definition rstrip (l : list ascii) : list ascii := rev (lstrip (rev l)).

(** The digits of [d (_? d)*], most significant first; [prev_us] tells
    that the previous character was an underscore. *)
Fixpoint digits (prev_us : bool) (l : list ascii) : option (list Z) :=
  match l with
  | [] => if prev_us then None else Some []
  | c :: r =>
      if is_digit c then
        match digits false r with
        | Some ds => Some (digit_val c :: ds)
        | None => None
        end
      else if is_char "_" c then
        if prev_us then None else digits true r
      else None
  end.

Definition value (ds : list Z) : Z := fold_left (fun acc d => 10 * acc + d) ds 0.

Definition unsigned (l : list ascii) : option Z :=
  match l with
  | [] => None
  | c :: _ =>
      if is_digit c then
        match digits false l with
        | Some ds =>
            if max_str_digits <? Z.of_nat (length ds) then None
            else Some (value ds)
        | None => None
        end
      else None
  end.

(** [int(s)]: [None] stands for [ValueError]. *)
Definition int (s : string) : option Z :=
  match rstrip (lstrip (to_list s)) with
  | c :: r =>
      if is_char "-" c then Z.opp <$> unsigned r
      else if is_char "+" c then unsigned r
      else unsigned (c :: r)
  | [] => None
  end.

End PyInt.

(** ** The [datetime] library: proleptic Gregorian calendar

    The handlers only build datetimes from date-only formats and move
    them by whole days, so a datetime is its calendar date (the time of
    day is always midnight). *)

Module Calendar.

Record datetime := { year : Z; month : Z; day : Z }.

Definition MINYEAR : Z := 1.
Definition MAXYEAR : Z := 9999.

Definition DAYS_IN_MONTH (month : Z) : Z :=
  match month with
  | 1 => 31 | 2 => 28 | 3 => 31 | 4 => 30 | 5 => 31 | 6 => 30
  | 7 => 31 | 8 => 31 | 9 => 30 | 10 => 31 | 11 => 30 | 12 => 31
  | _ => -1
  end.

Definition DAYS_BEFORE_MONTH (month : Z) : Z :=
  match month with
  | 1 => 0 | 2 => 31 | 3 => 59 | 4 => 90 | 5 => 120 | 6 => 151
  | 7 => 181 | 8 => 212 | 9 => 243 | 10 => 273 | 11 => 304 | 12 => 334
  | _ => -1
  end.

Definition is_leap (year : Z) : bool :=
  (year mod 4 =? 0) && (negb (year mod 100 =? 0) || (year mod 400 =? 0)).

Definition days_before_year (year : Z) : Z :=
  let y := year - 1 in
  y * 365 + y / 4 - y / 100 + y / 400.

Definition days_in_month (year month : Z) : Z :=
  if (month =? 2) && is_leap year then 29 else DAYS_IN_MONTH month.

Definition days_before_month (year month : Z) : Z :=
  DAYS_BEFORE_MONTH month + (if (2 <? month) && is_leap year then 1 else 0).

Definition ymd2ord (year month day : Z) : Z :=
  days_before_year year + days_before_month year month + day.

Definition DI400Y : Z := 146097.
Definition DI100Y : Z := 36524.
Definition DI4Y : Z := 1461.

Definition ord2ymd (n : Z) : datetime :=
  let n := n - 1 in
  let n400 := n / DI400Y in
  let n := n mod DI400Y in
  let year := n400 * 400 + 1 in
  let n100 := n / DI100Y in
  let n := n mod DI100Y in
  let n4 := n / DI4Y in
  let n := n mod DI4Y in
  let n1 := n / 365 in
  let n := n mod 365 in
  let year := year + n100 * 100 + n4 * 4 + n1 in
  if (n1 =? 4) || (n100 =? 4) then
    {| year := year - 1; month := 12; day := 31 |}
  else
    let leapyear := (n1 =? 3) && (negb (n4 =? 24) || (n100 =? 3)) in
    let month := Z.shiftr (n + 50) 5 in
    let preceding :=
      DAYS_BEFORE_MONTH month + (if (2 <? month) && leapyear then 1 else 0) in
    if n <? preceding then
      let month := month - 1 in
      let preceding :=
        preceding - (DAYS_IN_MONTH month
                     + (if (month =? 2) && leapyear then 1 else 0)) in
      {| year := year; month := month; day := n - preceding + 1 |}
    else
      {| year := year; month := month; day := n - preceding + 1 |}.

(** The constructor's range check ([ValueError] otherwise). *)
Definition check_date_fields (y m d : Z) : bool :=
  (MINYEAR <=? y) && (y <=? MAXYEAR) && (1 <=? m) && (m <=? 12)
  && (1 <=? d) && (d <=? days_in_month y m).

Definition valid (dt : datetime) : Prop :=
  check_date_fields (year dt) (month dt) (day dt) = true.

Definition toordinal (dt : datetime) : Z :=
  ymd2ord (year dt) (month dt) (day dt).

Definition MAXORDINAL : Z := 3652059.

(** [(b - a).days] for two datetimes at midnight. *)
Definition sub_days (b a : datetime) : Z := toordinal b - toordinal a.

(** [dt + timedelta(days=i)]; [None] stands for [OverflowError]. *)
Definition add_days (dt : datetime) (i : Z) : option datetime :=
  let n := toordinal dt + i in
  if (1 <=? n) && (n <=? MAXORDINAL) then Some (ord2ymd n) else None.

End Calendar.

(** ** [strptime] and [strftime] for the two formats of the handlers

    [strptime] compiles the format to a regular expression, matches it
    at the start of the input (leftmost alternative first, with
    backtracking), refuses unconverted data, converts the groups with
    [int] and builds the date.  A parser below returns every way of
    matching a prefix, in the order in which the regular expression
    engine tries them: (matched text, rest). *)

Module Format.
Import Str Calendar.

Definition parser : Type := string -> list (string * string).

Definition cls (p : ascii -> bool) : parser := fun s =>
  match s with
  | String c r => if p c then [(String c EmptyString, r)] else []
  | EmptyString => []
  end.

Definition cat (p q : parser) : parser := fun s =>
  '(a, r) ← p s; '(b, r') ← q r; [((a ++ b)%string, r')].

Definition alt (p q : parser) : parser := fun s => (p s ++ q s)%list.

(** [%Y]: [\d\d\d\d] *)
Definition re_Y : parser :=
  cat (cls is_digit) (cat (cls is_digit) (cat (cls is_digit) (cls is_digit))).

(** [%m]: [1[0-2]|0[1-9]|[1-9]] *)
Definition re_m : parser :=
  alt (cat (cls (is_char "1")) (cls (in_range "0" "2")))
 (alt (cat (cls (is_char "0")) (cls (in_range "1" "9")))
      (cls (in_range "1" "9"))).

(** [%d]: [3[0-1]|[1-2]\d|0[1-9]|[1-9]| [1-9]] *)
Definition re_d : parser :=
  alt (cat (cls (is_char "3")) (cls (in_range "0" "1")))
 (alt (cat (cls (in_range "1" "2")) (cls is_digit))
 (alt (cat (cls (is_char "0")) (cls (in_range "1" "9")))
 (alt (cls (in_range "1" "9"))
      (cat (cls (is_char " ")) (cls (in_range "1" "9")))))).

Definition dash : parser := cls (is_char "-").

(** The first match of the regular expression of ["%Y-%m-%d"]:
    the three groups and the unconverted rest. *)
Definition match_ymd (s : string) : option (string * string * string * string) :=
  head ('(Y, r) ← re_Y s; '(_, r) ← dash r; '(m, r) ← re_m r;
        '(_, r) ← dash r; '(d, r) ← re_d r; [(Y, m, d, r)]).

(** The same for ["%Y-%m"]. *)
Definition match_ym (s : string) : option (string * string * string) :=
  head ('(Y, r) ← re_Y s; '(_, r) ← dash r; '(m, r) ← re_m r; [(Y, m, r)]).

Definition make_date (y m d : Z) : option datetime :=
  if check_date_fields y m d then Some {| year := y; month := m; day := d |}
  else None.

(** [datetime.strptime(s, "%Y-%m-%d")]; [None] stands for [ValueError]. *)
Definition strptime_ymd (s : string) : option datetime :=
  match match_ymd s with
  | Some (Y, m, d, EmptyString) =>
      y ← PyInt.int Y; m ← PyInt.int m; d ← PyInt.int d; make_date y m d
  | _ => None
  end.

(** [datetime.strptime(s, "%Y-%m")]: the day defaults to 1. *)
Definition strptime_ym (s : string) : option datetime :=
  match match_ym s with
  | Some (Y, m, EmptyString) =>
      y ← PyInt.int Y; m ← PyInt.int m; make_date y m 1
  | _ => None
  end.

Definition digit_char (n : Z) : ascii := chr (48 + n).

Definition pad2 (n : Z) : string :=
  String (digit_char (n / 10 mod 10)) (String (digit_char (n mod 10)) EmptyString).

Definition pad4 (n : Z) : string :=
  String (digit_char (n / 1000 mod 10)) (String (digit_char (n / 100 mod 10)) (pad2 n)).

(** [%Y] of [strftime] is left to the C library: some print the year
    on four digits ([pad_year = true]), glibc prints a year below 1000
    without leading zeros ([pad_year = false]). *)
Definition fmt_Y (pad_year : bool) (y : Z) : string :=
  if pad_year || (1000 <=? y) then pad4 y
  else if 100 <=? y then String (digit_char (y / 100 mod 10)) (pad2 y)
  else if 10 <=? y then pad2 y
  else String (digit_char (y mod 10)) EmptyString.

(** [dt.strftime("%Y-%m-%d")] *)
Definition strftime_ymd (pad_year : bool) (dt : datetime) : string :=
  (fmt_Y pad_year (year dt) ++ "-" ++ pad2 (month dt) ++ "-" ++ pad2 (day dt))%string.

(** [d.strftime("%Y-%m")] *)
Definition strftime_ym (pad_year : bool) (dt : datetime) : string :=
  (fmt_Y pad_year (year dt) ++ "-" ++ pad2 (month dt))%string.

End Format.

(** ** Exceptions, results and effects *)

Inductive exn :=
| HTTPException (status_code : Z) (detail : string)
| HTTPStatusError (status_code : Z) (message : string)
| RequestError
| Exception (message : string)
| ValueError
| JSONDecodeError
| IndexError
| KeyError
| TypeError
| AttributeError
| OverflowError
| ExternalError (name : string).

Inductive result (A : Type) :=
| Ok (a : A)
| Raise (e : exn).
Arguments Ok {A} a.
Arguments Raise {A} e.

(** [isinstance(e, ValueError)]: [json]'s decode error is a subclass. *)
Definition is_ValueError (e : exn) : bool :=
  match e with
  | ValueError | JSONDecodeError => true
  | _ => false
  end.

Definition result_bind {A B} (r : result A) (f : A -> result B) : result B :=
  match r with
  | Ok a => f a
  | Raise e => Raise e
  end.

#[global] Instance result_mret : MRet result := fun _ a => Ok a.
#[global] Instance result_mbind : MBind result := fun _ _ f r => result_bind r f.

(** [l[i]] *)
Definition getitem {A} (l : list A) (i : nat) : result A :=
  match l !! i with
  | Some x => Ok x
  | None => Raise IndexError
  end.

(** [int(s)] *)
Definition int (s : string) : result Z :=
  match PyInt.int s with
  | Some n => Ok n
  | None => Raise ValueError
  end.

(** [with contextlib.suppress(ValueError): body], where [body] changes
    the state [s] only as its last step. *)
Definition suppress_ValueError {S} (s : S) (body : result S) : result S :=
  match body with
  | Ok s' => Ok s'
  | Raise e => if is_ValueError e then Ok s else Raise e
  end.

(** [for x in l: body] over a state. *)
Fixpoint for_each {S A} (body : S -> A -> result S) (s : S) (l : list A) : result S :=
  match l with
  | [] => Ok s
  | x :: l' =>
      match body s x with
      | Ok s' => for_each body s' l'
      | Raise e => Raise e
      end
  end.

(** [range(n)] *)
Definition range (n : Z) : list Z := Z.of_nat <$> seq 0 (Z.to_nat n).

(** *** JSON values, as [response.json()] returns them *)

#[local] Unset Elimination Schemes.
Inductive json :=
| JNull
| JBool (b : bool)
| JInt (n : Z)
| JStr (s : string)
| JList (l : list json)
| JDict (items : list (string * json)).
#[local] Set Elimination Schemes.

Fixpoint assoc (k : string) (items : list (string * json)) : option json :=
  match items with
  | [] => None
  | (k', v) :: items' => if String.eqb k k' then Some v else assoc k items'
  end.

(** [v[k]] for a string key [k] *)
Definition subscript (v : json) (k : string) : result json :=
  match v with
  | JDict items =>
      match assoc k items with
      | Some x => Ok x
      | None => Raise KeyError
      end
  | _ => Raise TypeError
  end.

(** *** Values of the handlers *)

(** [{"sell": sell, "buy": buy}] *)
Record quote := { sell : Z; buy : Z }.

(** A value of the dict of [/archive/]: the date string or a quote. *)
Inductive entry :=
| DateStr (s : string)
| Quote (q : quote).

(** A currency of the [bonbast] package. *)
Record currency := { code : string; currency_sell : Z; currency_buy : Z }.

Inductive cache_value :=
| LatestData (data : gmap string quote)
| CryptoData (data : json).

(** *** Parsed HTML: what [find_all] returns at each level *)

Record td := { text : string }.

(** A row is the list of its cells ([tr.find_all("td")]), a table the
    list of its rows ([table.find_all("tr")]), a page the list of its
    tables ([soup.find_all("table")]). *)
Abbreviation Tr := (list td).
Abbreviation Table := (list (list td)).
Abbreviation BeautifulSoup := (list (list (list td))).

Record post_response := { post_status_code : Z; post_soup : BeautifulSoup }.
Record get_response := { get_status_code : Z; get_json : option json }.

(** *** The outside world during one call *)

Record upstream := {
  (* httpx.post(url, data=...): [None] is a transport failure *)
  httpx_post : string -> list (string * string) -> option post_response;
  (* client.get(url) *)
  httpx_get : string -> option get_response;
  (* str(e) of the error of raise_for_status *)
  status_error_str : string -> Z -> string;
  (* the bonbast package *)
  get_token_from_main_page : result string;
  get_prices_from_api : string -> result (list currency * unit * unit);
}.

Inductive event :=
| Post (url : string) (data : list (string * string))
| Get (url : string)
| GetToken
| GetPrices (token : string)
| CacheSet (key : string) (value : cache_value) (expire : Z)
| LogInfo (message : string) (arg : option cache_value)
| LogError (message : string) (e : exn)
| Sleep (seconds : Z).

(** A computation with effects: its events, in order, and its outcome. *)
Definition M (A : Type) : Type := list event * result A.

Definition ret {A} (a : A) : M A := ([], Ok a).

Definition bind {A B} (m : M A) (f : A -> M B) : M B :=
  match m with
  | (t, Ok a) => let '(t', r) := f a in ((t ++ t')%list, r)
  | (t, Raise e) => (t, Raise e)
  end.

Definition emit (e : event) : M unit := ([e], Ok tt).

Definition raise {A} (e : exn) : M A := ([], Raise e).

Definition lift {A} (r : result A) : M A := ([], r).

(** [try: m  except <class> as e: h e]; [h] re-raises what its class
    does not cover. *)
Definition try_except {A} (m : M A) (h : exn -> M A) : M A :=
  match m with
  | (t, Ok a) => (t, Ok a)
  | (t, Raise e) => let '(t', r) := h e in ((t ++ t')%list, r)
  end.

#[global] Instance M_mret : MRet M := fun _ a => ret a.
#[global] Instance M_mbind : MBind M := fun _ _ f m => bind m f.

(** [for x in l: body] with effects. *)
Fixpoint for_each_M {S A} (body : S -> A -> M S) (s : S) (l : list A) : M S :=
  match l with
  | [] => ret s
  | x :: l' => s' ← body s x; for_each_M body s' l'
  end.


Definition events {A} (m : M A) : list event := fst m.
Definition outcome {A} (m : M A) : result A := snd m.

(** ** main.py *)

Import Calendar Format.

Definition BONBAST_URL : string := "https://www.bonbast.com".

(** [[td.text for td in tr.find_all("td")]] *)
Definition cells (row : Tr) : list string := map text row.

Definition merge_and_extract_tables (tables_soup : list Table) : list (list string) :=
  foldl (fun tables table_soup =>
           foldl (fun tables tr => (tables ++ [cells tr])%list)
                 tables (drop 1 table_soup))
        [] tables_soup.

(** The default arguments of the handlers.  Python evaluates a default
    once, when the [def] statement runs, that is when the module is
    loaded; [today] is the day of that moment (after 0001-01-01). *)
Record defaults := {
  historical_date : string;   (* read_historical_currency: date *)
  archive_date : string;      (* read_archive: date *)
  range_end_date : string;    (* read_archive_range: end_date *)
}.

Definition yesterday (today : datetime) : datetime :=
  ord2ymd (toordinal today - 1).

Definition module_defaults (pad_year : bool) (today : datetime) : defaults :=
  {| historical_date := strftime_ym pad_year today;
     archive_date := strftime_ymd pad_year (yesterday today);
     range_end_date := strftime_ymd pad_year (yesterday today) |}.

(** [l[:-1]] *)
Definition but_last {A} (l : list A) : list A := take (length l - 1) l.

Definition historical_row (prices : gmap string quote) (row : list string)
  : result (gmap string quote) :=
  suppress_ValueError prices
    (exact_date ← getitem row 0;
     sell ← getitem row 1 ≫= int;
     buy ← getitem row 2 ≫= int;
     if (0 <? sell) && (0 <? buy)
     then Ok (<[exact_date := {| sell := sell; buy := buy |}]> prices)
     else Ok prices).

Definition archive_row (prices : gmap string entry) (row : list string)
  : result (gmap string entry) :=
  suppress_ValueError prices
    (cell ← getitem row 0;
     let currency := Str.lower cell in
     sell ← getitem row 2 ≫= int;
     buy ← getitem row 3 ≫= int;
     if (0 <? sell) && (0 <? buy)
     then Ok (<[currency := Quote {| sell := sell; buy := buy |}]> prices)
     else Ok prices).

(** [price.pop(k)] *)
Definition pop (price : gmap string entry) (k : string)
  : result (entry * gmap string entry) :=
  match price !! k with
  | Some v => Ok (v, delete k price)
  | None => Raise KeyError
  end.

(** [price_range[date] = price]: a dict is not hashable. *)
Definition setitem (price_range : gmap string (gmap string entry))
    (date : entry) (price : gmap string entry)
  : result (gmap string (gmap string entry)) :=
  match date with
  | DateStr s => Ok (<[s := price]> price_range)
  | Quote _ => Raise TypeError
  end.

Section Handlers.

Variable pad_year : bool.
Variable dflt : defaults.
Variable up : upstream.

Definition post (url : string) (data : list (string * string)) : M post_response :=
  emit (Post url data);;
  match httpx_post up url data with
  | Some response => ret response
  | None => raise RequestError
  end.

Definition crawl_soup (url : string) (post_data : list (string * string))
  : M BeautifulSoup :=
  response ← post url post_data;
  if negb (post_status_code response =? 200)
  then raise (Exception ("Failed to crawl " ++ url))
  else ret (post_soup response).

Definition read_latest : M (gmap string quote) :=
  token ← (emit GetToken;; lift (get_token_from_main_page up));
  r ← (emit (GetPrices token);; lift (get_prices_from_api up token));
  let '(currencies, _, _) := r in
  ret (foldl (fun d c =>
                <[Str.lower (code c) :=
                    {| sell := currency_sell c; buy := currency_buy c |}]> d)
             ∅ currencies).

(** [client.get(url)] *)
Definition client_get (url : string) : M get_response :=
  emit (Get url);;
  match httpx_get up url with
  | Some response => ret response
  | None => raise RequestError
  end.

(** [response.raise_for_status()]: an error unless the status is 2xx. *)
Definition raise_for_status (url : string) (response : get_response) : M unit :=
  let s := get_status_code response in
  if (200 <=? s) && (s <=? 299) then ret tt
  else raise (HTTPStatusError s (status_error_str up url s)).

(** [response.json()] *)
Definition response_json (response : get_response) : result json :=
  match get_json response with
  | Some data => Ok data
  | None => Raise JSONDecodeError
  end.

Definition get_crypto_prices : M json :=
  response ←
    try_except
      (response ← client_get "https://api.wallex.ir/v1/markets";
       raise_for_status "https://api.wallex.ir/v1/markets" response;;
       ret response)
      (fun e =>
         match e with
         | HTTPStatusError status_code message =>
             raise (HTTPException status_code message)
         | _ => raise e
         end);
  data ← lift (response_json response);
  lift (subscript data "result" ≫= fun r => subscript r "symbols").

Definition read_historical_currency (currency : string) (date : option string)
  : M (gmap string quote) :=
  let date := default (historical_date dflt) date in
  match strptime_ym date with
  | None => raise (HTTPException 422 "Invalid Date format. Expected YYYY-MM")
  | Some date =>
      soup ← crawl_soup (BONBAST_URL ++ "/historical")
                [("date", strftime_ymd pad_year date); ("currency", currency)];
      match head soup with
      | None => raise AttributeError
      | Some table_soup =>
          let table := map cells (drop 1 table_soup) in
          lift (for_each historical_row ∅ table)
      end
  end.

Definition read_archive (date : option string) : M (gmap string entry) :=
  let date := default (archive_date dflt) date in
  match strptime_ymd date with
  | None => raise (HTTPException 422 "Invalid Date format. Expected YYYY-MM-DD")
  | Some date =>
      soup ← crawl_soup (BONBAST_URL ++ "/archive")
                [("date", strftime_ymd pad_year date)];
      let table_soup := soup in
      let table := merge_and_extract_tables (but_last table_soup) in
      let prices := {["date" := DateStr (strftime_ymd pad_year date)]} in
      lift (for_each archive_row prices table)
  end.

Definition read_archive_range (start_date : string) (end_date : option string)
  : M (gmap string (gmap string entry)) :=
  let end_date := default (range_end_date dflt) end_date in
  match start_date ← strptime_ymd start_date;
        end_date ← strptime_ymd end_date;
        Some (start_date, end_date) with
  | None => raise (HTTPException 422 "Invalid Date format. Expected YYYY-MM-DD")
  | Some (start_date, end_date) =>
      let duration_days := sub_days end_date start_date in
      for_each_M
        (fun price_range i =>
           day ← lift (match add_days start_date i with
                        | Some day => Ok day
                        | None => Raise OverflowError
                        end);
           price ← read_archive (Some (strftime_ymd pad_year day));
           popped ← lift (pop price "date");
           let '(date, price) := popped in
           lift (setitem price_range date price))
        ∅ (range (duration_days + 1))
  end.




End Handlers.


(** * Definitions used to state the properties *)

(** [a < b] on datetimes, as Python compares them: by year, then month,
    then day. *)
Definition before (a b : datetime) : Prop :=
  year a < year b
  \/ (year a = year b
      /\ (month a < month b \/ (month a = month b /\ day a < day b))).

(** The day [i] days after [start], and the string [read_archive_range]
    prints for it. *)
Definition day_of (start : datetime) (i : Z) : datetime :=
  ord2ymd (toordinal start + i).

Definition day_key (pad_year : bool) (start : datetime) (i : Z) : string :=
  strftime_ymd pad_year (day_of start i).

(** The body of the loop of [read_archive_range]. *)
Definition range_step (pad_year : bool) (dflt : defaults) (up : upstream)
    (start_date : datetime)
    (price_range : gmap string (gmap string entry)) (i : Z)
  : M (gmap string (gmap string entry)) :=
  day ← lift (match add_days start_date i with
              | Some day => Ok day
              | None => Raise OverflowError
              end);
  price ← read_archive pad_year dflt up (Some (strftime_ymd pad_year day));
  popped ← lift (pop price "date");
  let '(date, price) := popped in
  lift (setitem price_range date price).


Definition archive_source (table : list (list string)) (k : string) (v : entry) : Prop :=
  exists row c s b q,
    row ∈ table /\ row !! 0%nat = Some c /\ row !! 2%nat = Some s /\ row !! 3%nat = Some b
    /\ k = Str.lower c /\ v = Quote q
    /\ PyInt.int s = Some (sell q) /\ PyInt.int b = Some (buy q)
    /\ 0 < sell q /\ 0 < buy q.




(** A bounded universal check, by running the test on every value. *)
Fixpoint all_from (f : Z -> bool) (z : Z) (n : nat) : bool :=
  match n with
  | O => true
  | S k => f z && all_from f (z + 1) k
  end.

(** The last part of [ord2ymd]: month and day from the day of the year. *)
Definition month_day (leapyear : bool) (n : Z) : Z * Z :=
  let month := Z.shiftr (n + 50) 5 in
  let preceding :=
    DAYS_BEFORE_MONTH month + (if (2 <? month) && leapyear then 1 else 0) in
  if n <? preceding then
    let month := month - 1 in
    let preceding :=
      preceding - (DAYS_IN_MONTH month
                   + (if (month =? 2) && leapyear then 1 else 0)) in
    (month, n - preceding + 1)
  else (month, n - preceding + 1).

Definition month_day_ok (leap : bool) (e : Z) : bool :=
  let '(m, d) := month_day leap e in
  (1 <=? m) && (m <=? 12) && (1 <=? d)
  && (d <=? DAYS_IN_MONTH m + (if (m =? 2) && leap then 1 else 0))
  && (DAYS_BEFORE_MONTH m + (if (2 <? m) && leap then 1 else 0) + d =? e + 1).

(** ** Sample data *)

Definition cell (s : string) : td := {| text := s |}.

Definition sample_page : BeautifulSoup :=
  [ [ [cell "Code"; cell "Currency"; cell "Sell"; cell "Buy"];
      [cell "USD"; cell "US Dollar"; cell "58900"; cell "58800"];
      [cell "EUR"; cell "Euro"; cell "-"; cell "63100"] ];
    [ [cell "Code"; cell "Coin"; cell "Sell"; cell "Buy"];
      [cell "GBP"; cell "British Pound"; cell "74000"; cell "0"] ];
    [ [cell "Footer"];
      [cell "XXX"; cell "ignored"; cell "1"; cell "1"] ] ].

Definition sample_upstream : upstream :=
  {| httpx_post := fun _ _ => Some {| post_status_code := 200; post_soup := sample_page |};
     httpx_get := fun _ => Some {| get_status_code := 503; get_json := None |};
     status_error_str := fun _ _ => "Server error '503 Service Unavailable'";
     get_token_from_main_page := Ok "token";
     get_prices_from_api := fun _ =>
       Ok ([{| code := "USD"; currency_sell := 58900; currency_buy := 58800 |}], tt, tt) |}.

Definition sample_defaults : defaults :=
  module_defaults true {| year := 2024; month := 1; day := 31 |}.

(** ** Entries, requests and further sample data *)

(** The entry that a row of [/historical] stores, if it stores one. *)
Definition historical_entry (row : list string) : option (string * quote) :=
  match row with
  | date :: s :: b :: _ =>
      match PyInt.int s, PyInt.int b with
      | Some sell, Some buy =>
          if (0 <? sell) && (0 <? buy)
          then Some (date, {| sell := sell; buy := buy |})
          else None
      | _, _ => None
      end
  | _ => None
  end.

(** The same for a row of [/archive/]. *)
Definition archive_entry (row : list string) : option (string * entry) :=
  match row with
  | c :: _ :: s :: b :: _ =>
      match PyInt.int s, PyInt.int b with
      | Some sell, Some buy =>
          if (0 <? sell) && (0 <? buy)
          then Some (Str.lower c, Quote {| sell := sell; buy := buy |})
          else None
      | _, _ => None
      end
  | _ => None
  end.

Definition sample_history_page : BeautifulSoup :=
  [ [ [cell "Date"; cell "Sell"; cell "Buy"];
      [cell "2024-01-01"; cell "58900"; cell "58800"];
      [cell "2024-01-02"; cell "n/a"; cell "58800"];
      [cell "2024-01-01"; cell "59000"; cell "58900"] ];
    [ [cell "Date"; cell "Sell"; cell "Buy"];
      [cell "2024-01-03"; cell "1"; cell "1"] ] ].

Definition sample_history_upstream : upstream :=
  {| httpx_post := fun _ _ =>
       Some {| post_status_code := 200; post_soup := sample_history_page |};
     httpx_get := httpx_get sample_upstream;
     status_error_str := status_error_str sample_upstream;
     get_token_from_main_page := get_token_from_main_page sample_upstream;
     get_prices_from_api := get_prices_from_api sample_upstream |}.

(** An upstream whose page has a single table. *)
Definition one_table_page : BeautifulSoup :=
  [ [ [cell "Code"; cell "Currency"; cell "Sell"; cell "Buy"];
      [cell "USD"; cell "US Dollar"; cell "58900"; cell "58800"] ] ].

Definition one_table_upstream : upstream :=
  {| httpx_post := fun _ _ =>
       Some {| post_status_code := 200; post_soup := one_table_page |};
     httpx_get := httpx_get sample_upstream;
     status_error_str := status_error_str sample_upstream;
     get_token_from_main_page := get_token_from_main_page sample_upstream;
     get_prices_from_api := get_prices_from_api sample_upstream |}.




(** The entry of a currency in the dict of [/latest]. *)
Definition latest_entry (c : currency) : string * quote :=
  (Str.lower (code c), {| sell := currency_sell c; buy := currency_buy c |}).



(** An upstream with two codes that differ by case only. *)
Definition mixed_case_upstream : upstream :=
  {| httpx_post := httpx_post sample_upstream;
     httpx_get := fun _ =>
       Some {| get_status_code := 200;
               get_json := Some (JDict [("success", JBool true);
                                        ("result", JDict [("symbols", JList [JStr "BTCUSDT"])])]) |};
     status_error_str := status_error_str sample_upstream;
     get_token_from_main_page := Ok "token";
     get_prices_from_api := fun _ =>
       Ok ([{| code := "USD"; currency_sell := 58900; currency_buy := 58800 |};
            {| code := "EUR"; currency_sell := 63200; currency_buy := 63100 |};
            {| code := "usd"; currency_sell := 59000; currency_buy := 58950 |}], tt, tt) |}.

(** The first day of the month of [dt]. *)
Definition first_of_month (dt : datetime) : datetime :=
  {| year := year dt; month := month dt; day := 1 |}.

(** The characters that a literal of [int()] is made of. *)
Definition int_char (c : ascii) : bool :=
  Str.is_digit c || Str.is_space c || Str.is_char "_" c
  || Str.is_char "-" c || Str.is_char "+" c.

(** The string of the decimal digits [ds], most significant first, with
    the characters [lead] before it and [trail] after it. *)
Definition decimal (lead : list ascii) (ds : list Z) (trail : list ascii) : string :=
  Str.of_list (lead ++ (digit_char <$> ds) ++ trail).

(** A literal of decimal digits that [int()] takes. *)
Definition decimal_digits (ds : list Z) : Prop :=
  Forall (fun d => 0 <= d <= 9) ds
  /\ (0 < length ds)%nat /\ Z.of_nat (length ds) <= PyInt.max_str_digits.

Definition blanks (sp : list ascii) : Prop :=
  Forall (fun c => Str.is_space c = true) sp.

(** * Properties *)

(** ** The embedding on concrete inputs *)

Example int_plain : PyInt.int "42000" = Some 42000.
Proof. reflexivity. Qed.

Example int_spaces_sign : PyInt.int "  -17 " = Some (-17).
Proof. reflexivity. Qed.

Example int_underscore : PyInt.int "1_000" = Some 1000.
Proof. reflexivity. Qed.

Example int_bad_underscore :
  PyInt.int "1__0" = None /\ PyInt.int "_1" = None /\ PyInt.int "1_" = None.
Proof. repeat split; reflexivity. Qed.

Example int_not_a_number :
  PyInt.int "12.5" = None /\ PyInt.int "" = None /\ PyInt.int "-" = None
  /\ PyInt.int "- 5" = None.
Proof. repeat split; reflexivity. Qed.

Example lower_usd : Str.lower "USD" = "usd".
Proof. reflexivity. Qed.

Example strptime_leap_day :
  strptime_ymd "2024-02-29" = Some {| year := 2024; month := 2; day := 29 |}
  /\ strptime_ymd "2023-02-29" = None.
Proof. split; reflexivity. Qed.

Example strptime_short_fields :
  strptime_ymd "2024-1-5" = Some {| year := 2024; month := 1; day := 5 |}
  /\ strptime_ymd "2024-01- 5" = Some {| year := 2024; month := 1; day := 5 |}.
Proof. split; reflexivity. Qed.

Example strptime_refused :
  strptime_ymd "2024-13-05" = None /\ strptime_ymd "2024-01-011" = None
  /\ strptime_ymd "0000-01-01" = None /\ strptime_ymd "24-01-01" = None.
Proof. repeat split; reflexivity. Qed.

Example strptime_year_month :
  strptime_ym "2024-03" = Some {| year := 2024; month := 3; day := 1 |}
  /\ strptime_ym "2024-03-01" = None.
Proof. split; reflexivity. Qed.

Example ordinal_leap_day :
  ord2ymd 738945 = {| year := 2024; month := 2; day := 29 |}
  /\ ymd2ord 2024 2 29 = 738945.
Proof. split; reflexivity. Qed.

Example ordinal_ends :
  ymd2ord 9999 12 31 = MAXORDINAL
  /\ ord2ymd MAXORDINAL = {| year := 9999; month := 12; day := 31 |}
  /\ ord2ymd 1 = {| year := 1; month := 1; day := 1 |}.
Proof. repeat split; reflexivity. Qed.

Example strftime_small_year :
  strftime_ymd true {| year := 987; month := 3; day := 9 |} = "0987-03-09"
  /\ strftime_ymd false {| year := 987; month := 3; day := 9 |} = "987-03-09".
Proof. split; reflexivity. Qed.

Example archive_of_sample_page :
  read_archive true sample_defaults sample_upstream (Some "2024-01-15")
  = ([Post "https://www.bonbast.com/archive" [("date", "2024-01-15")]],
     Ok (<["usd" := Quote {| sell := 58900; buy := 58800 |}]>
           {["date" := DateStr "2024-01-15"]})).
Proof. vm_compute. reflexivity. Qed.

(** ** The calendar *)

Module CalendarFacts.

Lemma all_from_spec f n : forall z,
  all_from f z n = true -> forall r, z <= r < z + Z.of_nat n -> f r = true.
Proof.
  induction n as [|k IH]; intros z H r Hr; [lia|].
  simpl in H. apply andb_true_iff in H as [H1 H2].
  destruct (Z.eq_dec r z) as [->|Hne]; [done|].
  apply (IH (z + 1)); [done|lia].
Qed.

Lemma days_before_year_decompose a b c d :
  0 <= b <= 3 -> 0 <= c <= 24 -> 0 <= d <= 3 ->
  days_before_year (400 * a + 100 * b + 4 * c + d + 1)
  = 146097 * a + 36524 * b + 1461 * c + 365 * d.
Proof.
  intros Hb Hc Hd. unfold days_before_year. cbv zeta.
  replace (400 * a + 100 * b + 4 * c + d + 1 - 1) with (400 * a + 100 * b + 4 * c + d) by lia.
  assert (H4 : (400 * a + 100 * b + 4 * c + d) / 4 = 100 * a + 25 * b + c)
    by (symmetry; apply (Z.div_unique _ 4 _ d); lia).
  assert (H100 : (400 * a + 100 * b + 4 * c + d) / 100 = 4 * a + b)
    by (symmetry; apply (Z.div_unique _ 100 _ (4 * c + d)); lia).
  assert (H400 : (400 * a + 100 * b + 4 * c + d) / 400 = a)
    by (symmetry; apply (Z.div_unique _ 400 _ (100 * b + 4 * c + d)); lia).
  rewrite H4, H100, H400. lia.
Qed.

Lemma is_leap_decompose a b c d :
  0 <= b <= 3 -> 0 <= c <= 24 -> 0 <= d <= 3 ->
  is_leap (400 * a + 100 * b + 4 * c + d + 1)
  = (d =? 3) && (negb (c =? 24) || (b =? 3)).
Proof.
  intros Hb Hc Hd. unfold is_leap.
  set (y := 400 * a + 100 * b + 4 * c + d + 1).
  assert (H4 : y mod 4 = (d + 1) mod 4).
  { unfold y. replace (400 * a + 100 * b + 4 * c + d + 1) with (d + 1 + (100 * a + 25 * b + c) * 4) by lia.
    apply Z_mod_plus_full. }
  assert (H100 : y mod 100 = (4 * c + d + 1) mod 100).
  { unfold y. replace (400 * a + 100 * b + 4 * c + d + 1) with (4 * c + d + 1 + (4 * a + b) * 100) by lia.
    apply Z_mod_plus_full. }
  assert (H400 : y mod 400 = (100 * b + 4 * c + d + 1) mod 400).
  { unfold y. replace (400 * a + 100 * b + 4 * c + d + 1) with (100 * b + 4 * c + d + 1 + a * 400) by lia.
    apply Z_mod_plus_full. }
  rewrite H4, H100, H400.
  assert (d = 0 \/ d = 1 \/ d = 2 \/ d = 3) as Hd' by lia.
  destruct (Z.eqb_spec d 3) as [->|Hd3].
  - rewrite andb_true_l. change ((3 + 1) mod 4 =? 0) with true. rewrite andb_true_l.
    destruct (Z.eqb_spec c 24) as [->|Hc24].
    + change ((4 * 24 + 3 + 1) mod 100 =? 0) with true. cbn [negb orb].
      destruct (Z.eqb_spec b 3) as [->|Hb3]; [reflexivity|].
      assert (b = 0 \/ b = 1 \/ b = 2) as [->|[->| ->]] by lia; reflexivity.
    + rewrite (Z.mod_small (4 * c + 3 + 1) 100) by lia.
      destruct (Z.eqb_spec (4 * c + 3 + 1) 0); [lia|reflexivity].
  - destruct Hd' as [->|[->|[->| ->]]]; try reflexivity. lia.
Qed.

Lemma month_day_check :
  all_from (month_day_ok true) 0 365 && all_from (month_day_ok false) 0 365 = true.
Proof. vm_compute. reflexivity. Qed.

Lemma month_day_spec leap e :
  0 <= e < 365 ->
  let m := fst (month_day leap e) in
  let d := snd (month_day leap e) in
  1 <= m <= 12
  /\ 1 <= d <= DAYS_IN_MONTH m + (if (m =? 2) && leap then 1 else 0)
  /\ DAYS_BEFORE_MONTH m + (if (2 <? m) && leap then 1 else 0) + d = e + 1.
Proof.
  intros He.
  pose proof month_day_check as H. apply andb_true_iff in H as [Ht Hf].
  assert (month_day_ok leap e = true) as Hok.
  { destruct leap; [apply (all_from_spec _ _ _ Ht)|apply (all_from_spec _ _ _ Hf)]; lia. }
  unfold month_day_ok in Hok. destruct (month_day leap e) as [m d]. cbn [fst snd].
  repeat (apply andb_true_iff in Hok as [Hok ?]). lia.
Qed.

Lemma days_in_month_alt y m :
  days_in_month y m = DAYS_IN_MONTH m + (if (m =? 2) && is_leap y then 1 else 0).
Proof.
  unfold days_in_month. destruct (Z.eqb_spec m 2) as [->|]; cbn [andb]; [|lia].
  destruct (is_leap y); reflexivity.
Qed.

Lemma ord2ymd_spec n :
  1 <= n ->
  let dt := ord2ymd n in
  1 <= year dt
  /\ 1 <= month dt <= 12
  /\ 1 <= day dt <= days_in_month (year dt) (month dt)
  /\ toordinal dt = n.
Proof.
  intros Hn. unfold ord2ymd. cbv zeta.
  set (n0 := n - 1).
  set (a := n0 / DI400Y). set (r400 := n0 mod DI400Y).
  set (b := r400 / DI100Y). set (r100 := r400 mod DI100Y).
  set (c := r100 / DI4Y). set (r4 := r100 mod DI4Y).
  set (d := r4 / 365). set (e := r4 mod 365).
  assert (E400 : n0 = 146097 * a + r400 /\ 0 <= r400 < 146097).
  { split; [apply (Z.div_mod n0 146097); lia | apply Z.mod_pos_bound; reflexivity]. }
  assert (E100 : r400 = 36524 * b + r100 /\ 0 <= r100 < 36524).
  { split; [apply (Z.div_mod r400 36524); lia | apply Z.mod_pos_bound; reflexivity]. }
  assert (E4 : r100 = 1461 * c + r4 /\ 0 <= r4 < 1461).
  { split; [apply (Z.div_mod r100 1461); lia | apply Z.mod_pos_bound; reflexivity]. }
  assert (E1 : r4 = 365 * d + e /\ 0 <= e < 365).
  { split; [apply (Z.div_mod r4 365); lia | apply Z.mod_pos_bound; reflexivity]. }
  assert (Ha : 0 <= a) by (apply Z.div_pos; unfold n0, DI400Y; lia).
  assert (Hb : 0 <= b <= 4) by lia.
  assert (Hc : 0 <= c <= 24) by lia.
  assert (Hd : 0 <= d <= 4) by lia.
  clearbody a r400 b r100 c r4 d e.
  destruct (Z.eqb_spec d 4) as [Hd4|Hd4]; cbn [orb].
  { (* the last day of a leap year that ends a four-year block *)
    assert (e = 0 /\ c <= 23 /\ b <= 3) as (-> & Hc' & Hb') by lia. subst d.
    unfold toordinal, ymd2ord. cbn [year month day].
    replace (a * 400 + 1 + b * 100 + c * 4 + 4 - 1)
      with (400 * a + 100 * b + 4 * c + 3 + 1) by lia.
    rewrite days_in_month_alt. unfold days_before_month.
    rewrite is_leap_decompose, days_before_year_decompose by lia.
    destruct (Z.eqb_spec c 24); [lia|]. cbn. lia. }
  destruct (Z.eqb_spec b 4) as [Hb4|Hb4].
  { (* the last day of a 400-year cycle *)
    assert (r100 = 0 /\ c = 0 /\ d = 0 /\ e = 0) as (-> & -> & -> & ->) by lia. subst b.
    unfold toordinal, ymd2ord. cbn [year month day].
    replace (a * 400 + 1 + 4 * 100 + 0 * 4 + 0 - 1)
      with (400 * a + 100 * 3 + 4 * 24 + 3 + 1) by lia.
    rewrite days_in_month_alt. unfold days_before_month.
    rewrite is_leap_decompose, days_before_year_decompose by lia.
    cbn. lia. }
  set (leap := (d =? 3) && (negb (c =? 24) || (b =? 3))).
  replace (a * 400 + 1 + b * 100 + c * 4 + d)
    with (400 * a + 100 * b + 4 * c + d + 1) by lia.
  set (y := 400 * a + 100 * b + 4 * c + d + 1).
  assert (Hleap : is_leap y = leap) by (apply is_leap_decompose; lia).
  assert (Hdby : days_before_year y = 146097 * a + 36524 * b + 1461 * c + 365 * d)
    by (apply days_before_year_decompose; lia).
  pose proof (month_day_spec leap e ltac:(lia)) as Hmd. cbv zeta in Hmd.
  match goal with
  | |- context [if ?t then ?x else ?z] =>
      assert (Hrec : (if t then x else z)
                     = {| year := y; month := fst (month_day leap e);
                          day := snd (month_day leap e) |})
  end.
  { unfold month_day. cbv zeta.
    match goal with |- context [e <? ?p] => destruct (e <? p) end; reflexivity. }
  rewrite Hrec. clear Hrec.
  destruct (month_day leap e) as [m dd]. cbn [fst snd] in *.
  unfold toordinal, ymd2ord, days_before_month. cbn [year month day].
  rewrite days_in_month_alt, Hleap, Hdby.
  unfold y. lia.
Qed.

Lemma days_before_year_step y :
  days_before_year y + 365 <= days_before_year (y + 1) <= days_before_year y + 366.
Proof.
  unfold days_before_year. cbv zeta.
  replace (y + 1 - 1) with (y - 1 + 1) by lia.
  generalize (y - 1). intros z. Z.div_mod_to_equations. lia.
Qed.

Lemma days_before_year_mono y1 y2 :
  y1 <= y2 -> days_before_year y1 <= days_before_year y2.
Proof.
  intros H. replace y2 with (y1 + Z.of_nat (Z.to_nat (y2 - y1))) by lia.
  induction (Z.to_nat (y2 - y1)) as [|k IH].
  - replace (y1 + Z.of_nat 0) with y1 by lia. lia.
  - replace (y1 + Z.of_nat (S k)) with (y1 + Z.of_nat k + 1) by lia.
    pose proof (days_before_year_step (y1 + Z.of_nat k)). lia.
Qed.

Lemma month_span y m d :
  1 <= m <= 12 -> 1 <= d <= days_in_month y m ->
  1 <= days_before_month y m + d <= 365 + (if is_leap y then 1 else 0).
Proof.
  intros Hm Hd. unfold days_before_month, days_in_month in *.
  assert (m = 1 \/ m = 2 \/ m = 3 \/ m = 4 \/ m = 5 \/ m = 6 \/ m = 7 \/ m = 8
          \/ m = 9 \/ m = 10 \/ m = 11 \/ m = 12) as Hcases by lia.
  destruct (is_leap y);
    repeat (destruct Hcases as [->|Hcases]); try subst m; cbn in *; lia.
Qed.

Lemma toordinal_bounds dt : valid dt -> 1 <= toordinal dt <= MAXORDINAL.
Proof.
  unfold valid, check_date_fields, MINYEAR, MAXYEAR, toordinal, ymd2ord.
  destruct dt as [y m d]. cbn [year month day]. intros H.
  repeat (apply andb_true_iff in H as [H ?]).
  pose proof (month_span y m d ltac:(lia) ltac:(lia)) as Hs.
  pose proof (days_before_year_mono 1 y ltac:(lia)) as Hlo.
  change (days_before_year 1) with 0 in Hlo.
  split; [lia|].
  destruct (Z.eq_dec y 9999) as [->|Hy].
  - change (is_leap 9999) with false in Hs.
    change (days_before_year 9999) with 3651694. unfold MAXORDINAL. lia.
  - pose proof (days_before_year_mono (y + 1) 9999 ltac:(lia)) as Hhi.
    change (days_before_year 9999) with 3651694 in Hhi.
    pose proof (days_before_year_step y). unfold MAXORDINAL.
    destruct (is_leap y); lia.
Qed.

Lemma ord2ymd_valid n :
  1 <= n <= MAXORDINAL -> valid (ord2ymd n) /\ toordinal (ord2ymd n) = n.
Proof.
  intros Hn. pose proof (ord2ymd_spec n ltac:(lia)) as H. cbv zeta in H.
  revert H. generalize (ord2ymd n). intros [y m d]. cbn [year month day].
  intros (Hy & Hm & Hd & Ho). split; [|exact Ho].
  unfold valid, check_date_fields, MINYEAR, MAXYEAR. cbn [year month day].
  assert (y <= 9999).
  { destruct (Z_le_gt_dec y 9999) as [|Hgt]; [done|].
    pose proof (days_before_year_mono 10000 y ltac:(lia)) as Hmono.
    change (days_before_year 10000) with 3652059 in Hmono.
    pose proof (month_span _ _ _ Hm Hd).
    unfold toordinal, ymd2ord, MAXORDINAL in *. cbn [year month day] in *. lia. }
  repeat (apply andb_true_iff; split); lia.
Qed.

End CalendarFacts.

Import CalendarFacts.

(** ** Formats *)

Module FormatFacts.
Import Str CalendarFacts.

Ltac digit_cases k :=
  let H := fresh in
  assert (k = 0 \/ k = 1 \/ k = 2 \/ k = 3 \/ k = 4 \/ k = 5 \/ k = 6 \/ k = 7
          \/ k = 8 \/ k = 9) as H by lia;
  repeat (destruct H as [->|H]); [..|subst k].

Lemma is_digit_digit_char k : 0 <= k <= 9 -> is_digit (digit_char k) = true.
Proof. intros Hk. digit_cases k; reflexivity. Qed.

Lemma is_space_digit_char k : 0 <= k <= 9 -> is_space (digit_char k) = false.
Proof. intros Hk. digit_cases k; reflexivity. Qed.

Lemma is_minus_digit_char k : 0 <= k <= 9 -> is_char "-" (digit_char k) = false.
Proof. intros Hk. digit_cases k; reflexivity. Qed.

Lemma is_plus_digit_char k : 0 <= k <= 9 -> is_char "+" (digit_char k) = false.
Proof. intros Hk. digit_cases k; reflexivity. Qed.

Lemma digit_val_digit_char k : 0 <= k <= 9 -> digit_val (digit_char k) = k.
Proof. intros Hk. digit_cases k; reflexivity. Qed.

Lemma digit_range y p : 0 <= y -> 0 < p -> 0 <= y / p mod 10 <= 9.
Proof. intros. pose proof (Z.mod_pos_bound (y / p) 10). lia. Qed.

Lemma digit_range0 y : 0 <= y mod 10 <= 9.
Proof. pose proof (Z.mod_pos_bound y 10). lia. Qed.

Ltac digit_simpl :=
  repeat first
    [ rewrite is_space_digit_char by lia
    | rewrite is_digit_digit_char by lia
    | rewrite is_minus_digit_char by lia
    | rewrite is_plus_digit_char by lia
    | rewrite digit_val_digit_char by lia
    | progress cbn [to_list PyInt.lstrip PyInt.rstrip rev app PyInt.digits
                    PyInt.unsigned List.rev List.app] ].

Lemma int_digits2 a b :
  0 <= a <= 9 -> 0 <= b <= 9 ->
  PyInt.int (String (digit_char a) (String (digit_char b) EmptyString))
  = Some (10 * a + b).
Proof.
  intros Ha Hb. unfold PyInt.int, PyInt.rstrip. digit_simpl.
  cbn. f_equal; lia.
Qed.

Lemma int_digits4 a b c d :
  0 <= a <= 9 -> 0 <= b <= 9 -> 0 <= c <= 9 -> 0 <= d <= 9 ->
  PyInt.int (String (digit_char a) (String (digit_char b)
              (String (digit_char c) (String (digit_char d) EmptyString))))
  = Some (1000 * a + 100 * b + 10 * c + d).
Proof.
  intros Ha Hb Hc Hd. unfold PyInt.int, PyInt.rstrip. digit_simpl.
  cbn. f_equal; lia.
Qed.

Lemma int_pad2 n : 0 <= n <= 99 -> PyInt.int (pad2 n) = Some n.
Proof.
  intros Hn. unfold pad2.
  rewrite int_digits2 by (first [apply digit_range; lia | apply digit_range0]).
  f_equal. Z.div_mod_to_equations. lia.
Qed.

Lemma int_pad4 n : 0 <= n <= 9999 -> PyInt.int (pad4 n) = Some n.
Proof.
  intros Hn. unfold pad4, pad2.
  rewrite int_digits4 by (first [apply digit_range; lia | apply digit_range0]).
  f_equal. Z.div_mod_to_equations. lia.
Qed.

Lemma re_Y_four c1 c2 c3 c4 r :
  re_Y (String c1 (String c2 (String c3 (String c4 r))))
  = if is_digit c1 && is_digit c2 && is_digit c3 && is_digit c4
    then [(String c1 (String c2 (String c3 (String c4 EmptyString))), r)]
    else [].
Proof.
  unfold re_Y, cat, cls. cbn -[is_digit].
  destruct (is_digit c1); cbn -[is_digit]; [|reflexivity].
  destruct (is_digit c2); cbn -[is_digit]; [|reflexivity].
  destruct (is_digit c3); cbn -[is_digit]; [|reflexivity].
  destruct (is_digit c4); reflexivity.
Qed.

Ltac month_cases m :=
  let H := fresh in
  assert (m = 1 \/ m = 2 \/ m = 3 \/ m = 4 \/ m = 5 \/ m = 6 \/ m = 7 \/ m = 8
          \/ m = 9 \/ m = 10 \/ m = 11 \/ m = 12) as H by lia;
  repeat (destruct H as [->|H]); [..|subst m].

Ltac day_cases d :=
  let H := fresh in
  assert (d = 1 \/ d = 2 \/ d = 3 \/ d = 4 \/ d = 5 \/ d = 6 \/ d = 7 \/ d = 8
          \/ d = 9 \/ d = 10 \/ d = 11 \/ d = 12 \/ d = 13 \/ d = 14 \/ d = 15
          \/ d = 16 \/ d = 17 \/ d = 18 \/ d = 19 \/ d = 20 \/ d = 21 \/ d = 22
          \/ d = 23 \/ d = 24 \/ d = 25 \/ d = 26 \/ d = 27 \/ d = 28 \/ d = 29
          \/ d = 30 \/ d = 31) as H by lia;
  repeat (destruct H as [->|H]); [..|subst d].

(** After a four-digit year, the month and day of [strftime] match. *)
Lemma match_ymd_padded c1 c2 c3 c4 m d :
  is_digit c1 = true -> is_digit c2 = true -> is_digit c3 = true ->
  is_digit c4 = true -> 1 <= m <= 12 -> 1 <= d <= 31 ->
  match_ymd (String c1 (String c2 (String c3 (String c4
               (String "-" (pad2 m ++ String "-" (pad2 d)))))))
  = Some (String c1 (String c2 (String c3 (String c4 EmptyString))),
          pad2 m, pad2 d, EmptyString).
Proof.
  intros H1 H2 H3 H4 Hm Hd. unfold match_ymd.
  rewrite re_Y_four, H1, H2, H3, H4. cbn [andb].
  generalize (String c1 (String c2 (String c3 (String c4 EmptyString)))).
  intros Y. month_cases m; day_cases d; reflexivity.
Qed.

Lemma match_ym_padded c1 c2 c3 c4 m :
  is_digit c1 = true -> is_digit c2 = true -> is_digit c3 = true ->
  is_digit c4 = true -> 1 <= m <= 12 ->
  match_ym (String c1 (String c2 (String c3 (String c4 (String "-" (pad2 m))))))
  = Some (String c1 (String c2 (String c3 (String c4 EmptyString))),
          pad2 m, EmptyString).
Proof.
  intros H1 H2 H3 H4 Hm. unfold match_ym.
  rewrite re_Y_four, H1, H2, H3, H4. cbn [andb].
  generalize (String c1 (String c2 (String c3 (String c4 EmptyString)))).
  intros Y. month_cases m; reflexivity.
Qed.

Lemma append_cons c s t : (String c s ++ t)%string = String c (s ++ t)%string.
Proof. reflexivity. Qed.

Lemma append_nil t : (EmptyString ++ t)%string = t.
Proof. reflexivity. Qed.

Ltac append_norm := repeat first [rewrite append_cons | rewrite append_nil].

Lemma pad4_shape n :
  0 <= n <= 9999 ->
  exists c1 c2 c3 c4,
    pad4 n = String c1 (String c2 (String c3 (String c4 EmptyString)))
    /\ is_digit c1 = true /\ is_digit c2 = true
    /\ is_digit c3 = true /\ is_digit c4 = true.
Proof.
  intros Hn. do 4 eexists. split; [reflexivity|].
  repeat split; apply is_digit_digit_char;
    first [apply digit_range; lia | apply digit_range0].
Qed.

Lemma valid_fields dt :
  valid dt ->
  1 <= year dt <= 9999 /\ 1 <= month dt <= 12
  /\ 1 <= day dt <= days_in_month (year dt) (month dt) /\ day dt <= 31.
Proof.
  unfold valid, check_date_fields, MINYEAR, MAXYEAR. intros H.
  repeat (apply andb_true_iff in H as [H ?]).
  assert (days_in_month (year dt) (month dt) <= 31).
  { unfold days_in_month.
    destruct ((month dt =? 2) && is_leap (year dt)); [lia|].
    unfold DAYS_IN_MONTH. destruct (month dt) as [|p|p]; try lia.
    do 4 (try destruct p as [p|p|]); lia. }
  lia.
Qed.

Lemma make_date_valid dt :
  valid dt -> make_date (year dt) (month dt) (day dt) = Some dt.
Proof. unfold valid, make_date. intros ->. by destruct dt. Qed.

(** Parsing back what [strftime] printed: the date itself when the year
    is printed on four digits, a failure otherwise. *)
Lemma strptime_strftime_ymd pad dt :
  valid dt ->
  strptime_ymd (strftime_ymd pad dt)
  = if pad || (1000 <=? year dt) then Some dt else None.
Proof.
  intros Hv. pose proof (valid_fields dt Hv) as (Hy & Hm & Hd & Hd31).
  unfold strptime_ymd, strftime_ymd, fmt_Y.
  destruct (pad || (1000 <=? year dt)) eqn:Hpad.
  - destruct (pad4_shape (year dt)) as (c1 & c2 & c3 & c4 & E & H1 & H2 & H3 & H4);
      [lia|].
    rewrite E. append_norm.
    rewrite match_ymd_padded by (assumption || lia).
    rewrite <- E, int_pad4, !int_pad2 by lia.
    cbn [mbind option_bind].
    by apply make_date_valid.
  - apply orb_false_iff in Hpad as [-> Hlt]. apply Z.leb_gt in Hlt.
    unfold match_ymd.
    destruct (100 <=? year dt); [|destruct (10 <=? year dt)];
      unfold pad2; append_norm; rewrite re_Y_four;
      change (is_digit "-") with false;
      rewrite ?andb_false_r, ?andb_false_l; reflexivity.
Qed.

Lemma strptime_strftime_inv pad dt dt' :
  valid dt -> strptime_ymd (strftime_ymd pad dt) = Some dt' -> dt' = dt.
Proof.
  intros Hv. rewrite strptime_strftime_ymd by done.
  destruct (pad || _); congruence.
Qed.

End FormatFacts.

Import FormatFacts.

Module CalendarOrder.
Import CalendarFacts FormatFacts.

Lemma days_before_year_succ y :
  days_before_year (y + 1)
  = days_before_year y + 365 + (if is_leap y then 1 else 0).
Proof.
  unfold days_before_year, is_leap. cbv zeta.
  replace (y + 1 - 1) with y by lia.
  destruct (Z.eqb_spec (y mod 4) 0) as [H4|H4];
    destruct (Z.eqb_spec (y mod 100) 0) as [H100|H100];
    destruct (Z.eqb_spec (y mod 400) 0) as [H400|H400];
    cbn [andb orb negb]; Z.div_mod_to_equations; lia.
Qed.

Lemma toordinal_year dt :
  valid dt ->
  days_before_year (year dt) < toordinal dt <= days_before_year (year dt + 1).
Proof.
  intros Hv. destruct (valid_fields dt Hv) as (_ & Hm & Hd & _).
  pose proof (month_span _ _ _ Hm Hd). rewrite days_before_year_succ.
  unfold toordinal, ymd2ord. destruct (is_leap (year dt)); lia.
Qed.

Lemma toordinal_year_mono a b :
  valid a -> valid b -> toordinal a <= toordinal b -> year a <= year b.
Proof.
  intros Ha Hb Hle.
  destruct (Z_le_gt_dec (year a) (year b)) as [|Hgt]; [done|].
  pose proof (toordinal_year a Ha). pose proof (toordinal_year b Hb).
  pose proof (days_before_year_mono (year b + 1) (year a) ltac:(lia)). lia.
Qed.

Lemma days_before_month_mono y m1 m2 :
  1 <= m1 -> m1 < m2 -> m2 <= 12 ->
  days_before_month y m1 + days_in_month y m1 <= days_before_month y m2.
Proof.
  intros H1 H12 H2. unfold days_before_month, days_in_month.
  destruct (is_leap y); month_cases m1; month_cases m2; cbn; lia.
Qed.

Lemma before_toordinal a b :
  valid a -> valid b -> before a b -> toordinal a < toordinal b.
Proof.
  intros Ha Hb [Hy|[Hy [Hm|[Hm Hd]]]].
  - pose proof (toordinal_year a Ha). pose proof (toordinal_year b Hb).
    pose proof (days_before_year_mono (year a + 1) (year b) ltac:(lia)). lia.
  - destruct (valid_fields a Ha) as (_ & Hma & Hda & _).
    destruct (valid_fields b Hb) as (_ & Hmb & Hdb & _).
    pose proof (days_before_month_mono (year a) (month a) (month b)
                  ltac:(lia) Hm ltac:(lia)).
    unfold toordinal, ymd2ord. rewrite <- Hy. lia.
  - unfold toordinal, ymd2ord. rewrite Hy, Hm. lia.
Qed.


End CalendarOrder.

Import CalendarOrder.

(** ** Effects: equations of the monad *)

Lemma bind_ok {A B} (t : list event) (a : A) (f : A -> M B) :
  (mbind f ((t, Ok a) : M A) : M B) = ((t ++ events (f a))%list, outcome (f a)).
Proof. cbv [mbind M_mbind bind events outcome fst snd]. by destruct (f a). Qed.

Lemma bind_raise {A B} (t : list event) (e : exn) (f : A -> M B) :
  (mbind f ((t, Raise e) : M A) : M B) = (t, Raise e).
Proof. reflexivity. Qed.

Lemma outcome_bind {A B} (m : M A) (f : A -> M B) :
  outcome (m ≫= f)
  = match outcome m with
    | Ok a => outcome (f a)
    | Raise e => Raise e
    end.
Proof.
  destruct m as [t [a|e]]; [|reflexivity].
  cbv [mbind M_mbind bind events outcome fst snd]. by destruct (f a).
Qed.

Lemma events_bind {A B} (m : M A) (f : A -> M B) :
  events (m ≫= f)
  = match outcome m with
    | Ok a => (events m ++ events (f a))%list
    | Raise e => events m
    end.
Proof.
  destruct m as [t [a|e]]; [|reflexivity].
  cbv [mbind M_mbind bind events outcome fst snd]. by destruct (f a).
Qed.

Lemma bind_raise_inv {A B} (m : M A) (f : A -> M B) e :
  outcome (m ≫= f) = Raise e ->
  outcome m = Raise e \/ exists a, outcome m = Ok a /\ outcome (f a) = Raise e.
Proof.
  rewrite outcome_bind.
  destruct (outcome m) as [a|e']; intros H; [right; eauto|left; congruence].
Qed.

Lemma bind_ok_inv {A B} (m : M A) (f : A -> M B) b :
  outcome (m ≫= f) = Ok b ->
  exists a, outcome m = Ok a /\ outcome (f a) = Ok b.
Proof. rewrite outcome_bind. destruct (outcome m); [eauto|done]. Qed.

Lemma lift_bind {A B} (a : A) (f : A -> M B) : lift (Ok a) ≫= f = f a.
Proof. cbv [mbind M_mbind bind lift]. by destruct (f a). Qed.

Lemma outcome_lift {A} (r : result A) : outcome (lift r) = r.
Proof. reflexivity. Qed.

Lemma M_eta {A} (m : M A) : m = (events m, outcome m).
Proof. by destruct m. Qed.

(** ** Rows *)

Lemma for_each_raise {S A} (P : exn -> Prop) (body : S -> A -> result S) l :
  (forall s x e, body s x = Raise e -> P e) ->
  forall s e, for_each body s l = Raise e -> P e.
Proof.
  intros Hbody. induction l as [|x l IH]; intros s e; cbn; [done|].
  destruct (body s x) as [s'|e'] eqn:Hb.
  - apply IH.
  - intros [= ->]. eauto.
Qed.

Lemma historical_row_raise prices row e :
  historical_row prices row = Raise e -> e = IndexError.
Proof.
  unfold historical_row, getitem, int.
  destruct (row !! 0%nat); cbn; [|by intros [= <-]].
  destruct (row !! 1%nat); cbn; [|by intros [= <-]].
  destruct (PyInt.int _); cbn; [|done].
  destruct (row !! 2%nat); cbn; [|by intros [= <-]].
  destruct (PyInt.int _); cbn; [|done].
  by destruct (_ && _).
Qed.

Lemma archive_row_raise prices row e :
  archive_row prices row = Raise e -> e = IndexError.
Proof.
  unfold archive_row, getitem, int.
  destruct (row !! 0%nat); cbn; [|by intros [= <-]].
  destruct (row !! 2%nat); cbn; [|by intros [= <-]].
  destruct (PyInt.int _); cbn; [|done].
  destruct (row !! 3%nat); cbn; [|by intros [= <-]].
  destruct (PyInt.int _); cbn; [|done].
  by destruct (_ && _).
Qed.

Section HandlerFacts.

Variable pad_year : bool.
Variable dflt : defaults.
Variable up : upstream.

Lemma crawl_soup_raise url data e :
  outcome (crawl_soup up url data) = Raise e ->
  e = RequestError \/ exists msg, e = Exception msg.
Proof.
  unfold crawl_soup, post. rewrite !outcome_bind. cbn.
  destruct (httpx_post up url data) as [r|]; cbn; [|intros [= <-]; by left].
  destruct (negb _); cbn; [intros [= <-]; eauto|done].
Qed.

Lemma crawl_soup_events url data :
  events (crawl_soup up url data) = [Post url data].
Proof.
  unfold crawl_soup, post. rewrite !events_bind, !outcome_bind. cbn.
  destruct (httpx_post up url data) as [r|]; cbn; [|done].
  by destruct (negb _).
Qed.

Lemma read_archive_invalid date :
  strptime_ymd date = None ->
  read_archive pad_year dflt up (Some date)
  = ([], Raise (HTTPException 422 "Invalid Date format. Expected YYYY-MM-DD")).
Proof. unfold read_archive. cbn. by intros ->. Qed.

Lemma read_archive_valid date dt :
  strptime_ymd date = Some dt ->
  read_archive pad_year dflt up (Some date)
  = (soup ← crawl_soup up (BONBAST_URL ++ "/archive")
               [("date", strftime_ymd pad_year dt)];
     lift (for_each archive_row
             {["date" := DateStr (strftime_ymd pad_year dt)]}
             (merge_and_extract_tables (but_last soup)))).
Proof. unfold read_archive. cbn. by intros ->. Qed.

Lemma read_archive_no_http date dt status detail :
  strptime_ymd date = Some dt ->
  outcome (read_archive pad_year dflt up (Some date))
  <> Raise (HTTPException status detail).
Proof.
  intros Hd. rewrite (read_archive_valid date dt Hd). intros H.
  apply bind_raise_inv in H as [H|(s & _ & H)].
  - apply crawl_soup_raise in H as [?|[msg ?]]; done.
  - cbn in H.
    apply (for_each_raise (fun e => e = IndexError)) in H; [done|].
    intros ? ? ?. apply archive_row_raise.
Qed.

End HandlerFacts.

Lemma make_date_some y m d dt : make_date y m d = Some dt -> valid dt.
Proof.
  unfold make_date, valid. destruct (check_date_fields y m d) eqn:H; [|done].
  by intros [= <-].
Qed.

Lemma strptime_ymd_valid s dt : strptime_ymd s = Some dt -> valid dt.
Proof.
  unfold strptime_ymd. destruct (match_ymd s) as [[[[Y m] d] [|? ?]]|]; try done.
  destruct (PyInt.int Y); [|done]. destruct (PyInt.int m); [|done].
  destruct (PyInt.int d); [|done]. cbn. apply make_date_some.
Qed.

Lemma strptime_ym_valid s dt : strptime_ym s = Some dt -> valid dt.
Proof.
  unfold strptime_ym. destruct (match_ym s) as [[[Y m] [|? ?]]|]; try done.
  destruct (PyInt.int Y); [|done]. destruct (PyInt.int m); [|done].
  cbn. apply make_date_some.
Qed.

(** The rows of [/archive/] leave the date of the dict alone, unless a
    row is itself named "date". *)
Lemma archive_row_date s prices row prices' :
  archive_row prices row = Ok prices' ->
  (prices !! "date" = Some (DateStr s) \/ exists q, prices !! "date" = Some (Quote q)) ->
  (prices' !! "date" = Some (DateStr s) \/ exists q, prices' !! "date" = Some (Quote q)).
Proof.
  unfold archive_row, getitem, int. intros H Hd.
  destruct (row !! 0%nat) as [c|]; cbn in H; [|done].
  destruct (row !! 2%nat); cbn in H; [|done].
  destruct (PyInt.int _); cbn in H; [|by injection H as <-].
  destruct (row !! 3%nat); cbn in H; [|done].
  destruct (PyInt.int _); cbn in H; [|by injection H as <-].
  destruct (_ && _); injection H as <-; [|done].
  destruct (decide (Str.lower c = "date")) as [->|Hne].
  - right. eexists. apply lookup_insert_eq.
  - by rewrite lookup_insert_ne.
Qed.

Lemma for_each_invariant {S A} (P : S -> Prop) (body : S -> A -> result S) l :
  (forall s x s', body s x = Ok s' -> P s -> P s') ->
  forall s s', for_each body s l = Ok s' -> P s -> P s'.
Proof.
  intros Hbody. induction l as [|x l IH]; intros s s'; cbn.
  - by intros [= <-].
  - destruct (body s x) as [s1|] eqn:Hb; [|done]. eauto.
Qed.

Section RangeFacts.

Variable pad_year : bool.
Variable dflt : defaults.
Variable up : upstream.

Lemma read_archive_ok date prices :
  outcome (read_archive pad_year dflt up (Some date)) = Ok prices ->
  exists dt, strptime_ymd date = Some dt
    /\ (prices !! "date" = Some (DateStr (strftime_ymd pad_year dt))
        \/ exists q, prices !! "date" = Some (Quote q)).
Proof.
  destruct (strptime_ymd date) as [dt|] eqn:Hd.
  - rewrite (read_archive_valid _ _ _ _ _ Hd). intros H.
    apply bind_ok_inv in H as (s & _ & H). cbn in H.
    exists dt. split; [done|].
    apply (for_each_invariant
             (fun p => p !! "date" = Some (DateStr (strftime_ymd pad_year dt))
                       \/ exists q, p !! "date" = Some (Quote q))) in H; [done| |].
    + intros ? ? ?. apply archive_row_date.
    + left. apply lookup_singleton_eq.
  - by rewrite read_archive_invalid.
Qed.

Lemma read_archive_range_valid s e ds de :
  strptime_ymd s = Some ds -> strptime_ymd e = Some de ->
  read_archive_range pad_year dflt up s (Some e)
  = for_each_M (range_step pad_year dflt up ds) ∅ (range (sub_days de ds + 1)).
Proof. unfold read_archive_range. cbn. by intros -> ->. Qed.

Lemma read_archive_range_invalid s e :
  strptime_ymd s = None \/ strptime_ymd e = None ->
  read_archive_range pad_year dflt up s (Some e)
  = ([], Raise (HTTPException 422 "Invalid Date format. Expected YYYY-MM-DD")).
Proof.
  unfold read_archive_range. cbn. intros [->| ->]; [done|].
  by destruct (strptime_ymd s).
Qed.

Lemma add_days_in_range start i :
  valid start -> 0 <= i -> toordinal start + i <= MAXORDINAL ->
  add_days start i = Some (day_of start i)
  /\ valid (day_of start i) /\ toordinal (day_of start i) = toordinal start + i.
Proof.
  intros Hv Hi Hmax. pose proof (toordinal_bounds _ Hv).
  unfold add_days, day_of.
  destruct (Z.leb_spec 1 (toordinal start + i)); [|lia].
  destruct (Z.leb_spec (toordinal start + i) MAXORDINAL); [|lia].
  split; [done|]. apply ord2ymd_valid. lia.
Qed.

Lemma range_step_ok start acc i acc' :
  valid start -> 0 <= i -> toordinal start + i <= MAXORDINAL ->
  outcome (range_step pad_year dflt up start acc i) = Ok acc' ->
  exists p,
    outcome (read_archive pad_year dflt up (Some (day_key pad_year start i))) = Ok p
    /\ p !! "date" = Some (DateStr (day_key pad_year start i))
    /\ strptime_ymd (day_key pad_year start i) = Some (day_of start i)
    /\ acc' = <[day_key pad_year start i := delete "date" p]> acc.
Proof.
  intros Hv Hi Hmax. destruct (add_days_in_range start i Hv Hi Hmax) as (Ha & Hvd & _).
  unfold range_step. rewrite Ha, lift_bind. intros H.
  apply bind_ok_inv in H as (p & Hp & H).
  apply bind_ok_inv in H as ([date p'] & Hpop & H).
  fold (day_key pad_year start i) in Hp.
  exists p. split; [done|].
  destruct (read_archive_ok _ _ Hp) as (dt & Hdt & Hdate).
  assert (dt = day_of start i) as -> by (eapply strptime_strftime_inv; eauto).
  fold (day_key pad_year start i) in Hdate.
  unfold pop in Hpop. cbn in Hpop, H.
  destruct Hdate as [Hdate|[q Hdate]]; rewrite Hdate in Hpop;
    injection Hpop as <- <-; cbn in H; [|done].
  by injection H as <-.
Qed.

Lemma range_step_returns start acc i p s :
  valid start -> 0 <= i -> toordinal start + i <= MAXORDINAL ->
  outcome (read_archive pad_year dflt up (Some (day_key pad_year start i))) = Ok p ->
  p !! "date" = Some (DateStr s) ->
  exists acc', outcome (range_step pad_year dflt up start acc i) = Ok acc'.
Proof.
  intros Hv Hi Hmax Hp Hdate.
  destruct (add_days_in_range start i Hv Hi Hmax) as (Ha & Hvd & _).
  unfold range_step. rewrite Ha, lift_bind, outcome_bind.
  fold (day_key pad_year start i). rewrite Hp, outcome_bind, outcome_lift. unfold pop.
  rewrite Hdate. rewrite outcome_lift. cbn [setitem]. eauto.
Qed.

Lemma outcome_for_each_M_cons {S A} (body : S -> A -> M S) s x l :
  outcome (for_each_M body s (x :: l))
  = match outcome (body s x) with
    | Ok s' => outcome (for_each_M body s' l)
    | Raise e => Raise e
    end.
Proof. cbn [for_each_M]. apply outcome_bind. Qed.

Lemma day_key_inj start i j :
  valid start -> 0 <= i -> 0 <= j ->
  toordinal start + i <= MAXORDINAL -> toordinal start + j <= MAXORDINAL ->
  strptime_ymd (day_key pad_year start i) = Some (day_of start i) ->
  strptime_ymd (day_key pad_year start j) = Some (day_of start j) ->
  day_key pad_year start i = day_key pad_year start j -> i = j.
Proof.
  intros Hv Hi Hj Hmi Hmj Hpi Hpj Heq. rewrite Heq, Hpj in Hpi.
  injection Hpi as Hday.
  destruct (add_days_in_range start i Hv Hi Hmi) as (_ & _ & Hoi).
  destruct (add_days_in_range start j Hv Hj Hmj) as (_ & _ & Hoj).
  rewrite Hday in Hoj. lia.
Qed.

(** What the loop of [read_archive_range] has stored when it returns. *)
Lemma range_loop_ok start :
  valid start ->
  forall (len k : nat) acc m,
    toordinal start + Z.of_nat (k + len) <= MAXORDINAL + 1 ->
    outcome (for_each_M (range_step pad_year dflt up start) acc (Z.of_nat <$> seq k len)) = Ok m ->
    (forall j : nat, (k <= j < k + len)%nat ->
       exists p,
         outcome (read_archive pad_year dflt up (Some (day_key pad_year start (Z.of_nat j)))) = Ok p
         /\ p !! "date" = Some (DateStr (day_key pad_year start (Z.of_nat j)))
         /\ strptime_ymd (day_key pad_year start (Z.of_nat j)) = Some (day_of start (Z.of_nat j))
         /\ m !! day_key pad_year start (Z.of_nat j) = Some (delete "date" p))
    /\ (forall key,
          (forall j : nat, (k <= j < k + len)%nat -> key <> day_key pad_year start (Z.of_nat j)) ->
          m !! key = acc !! key).
Proof.
  intros Hv. induction len as [|len IH]; intros k acc m Hmax.
  - cbn. intros [= <-]. split; [intros j ?; lia|done].
  - cbn [seq fmap list_fmap]. rewrite outcome_for_each_M_cons.
    destruct (outcome (range_step pad_year dflt up start acc (Z.of_nat k))) as [acc1|] eqn:Hstep; [|done].
    apply range_step_ok in Hstep as (p & Hp & Hdate & Hparse & ->); [|done|lia|lia].
    intros Hloop. apply IH in Hloop as [Hin Hout]; [|lia].
    split.
    + intros j Hj. destruct (decide (j = k)) as [->|Hne].
      * exists p. repeat (split; [done|]).
        rewrite Hout; [apply lookup_insert_eq|].
        intros j Hj' Heq. destruct (Hin j Hj') as (p' & _ & _ & Hparse' & _).
        apply day_key_inj in Heq; [lia|done|lia|lia|lia|lia|done|done].
      * apply Hin. lia.
    + intros key Hkey. rewrite Hout by (intros j ?; apply Hkey; lia).
      rewrite lookup_insert_ne; [done|]. intros Heq. by apply (Hkey k); [lia|].
Qed.

Lemma range_loop_returns start :
  valid start ->
  forall (len k : nat) acc,
    toordinal start + Z.of_nat (k + len) <= MAXORDINAL + 1 ->
    (forall j : nat, (k <= j < k + len)%nat ->
       exists p s,
         outcome (read_archive pad_year dflt up (Some (day_key pad_year start (Z.of_nat j)))) = Ok p
         /\ p !! "date" = Some (DateStr s)) ->
    exists m, outcome (for_each_M (range_step pad_year dflt up start) acc (Z.of_nat <$> seq k len)) = Ok m.
Proof.
  intros Hv. induction len as [|len IH]; intros k acc Hmax Hdays.
  - by exists acc.
  - cbn [seq fmap list_fmap]. rewrite outcome_for_each_M_cons.
    destruct (Hdays k ltac:(lia)) as (p & s & Hp & Hdate).
    destruct (range_step_returns start acc (Z.of_nat k) p s) as [acc1 ->];
      [done|lia|lia|done|done|].
    apply IH; [lia|]. intros j Hj. apply Hdays. lia.
Qed.

End RangeFacts.

(** ** Rows: what one row does to the dict *)

Lemma historical_row_cells prices date s b rest :
  historical_row prices (date :: s :: b :: rest)
  = Ok (match PyInt.int s, PyInt.int b with
        | Some sell, Some buy =>
            if (0 <? sell) && (0 <? buy)
            then <[date := {| sell := sell; buy := buy |}]> prices
            else prices
        | _, _ => prices
        end).
Proof.
  unfold historical_row, getitem, int. cbn.
  destruct (PyInt.int s); cbn; [|done].
  destruct (PyInt.int b); cbn; [|done].
  by destruct (_ && _).
Qed.

Lemma archive_row_cells prices c x s b rest :
  archive_row prices (c :: x :: s :: b :: rest)
  = Ok (match PyInt.int s, PyInt.int b with
        | Some sell, Some buy =>
            if (0 <? sell) && (0 <? buy)
            then <[Str.lower c := Quote {| sell := sell; buy := buy |}]> prices
            else prices
        | _, _ => prices
        end).
Proof.
  unfold archive_row, getitem, int. cbn.
  destruct (PyInt.int s); cbn; [|done].
  destruct (PyInt.int b); cbn; [|done].
  by destruct (_ && _).
Qed.


Lemma archive_row_ok prices row prices' :
  archive_row prices row = Ok prices' ->
  prices' = prices
  \/ exists c s b sell buy,
       row !! 0%nat = Some c /\ row !! 2%nat = Some s /\ row !! 3%nat = Some b
       /\ PyInt.int s = Some sell /\ PyInt.int b = Some buy
       /\ 0 < sell /\ 0 < buy
       /\ prices' = <[Str.lower c := Quote {| sell := sell; buy := buy |}]> prices.
Proof.
  unfold archive_row, getitem, int.
  destruct (row !! 0%nat) as [c|]; cbn; [|done].
  destruct (row !! 2%nat) as [s|]; cbn; [|done].
  destruct (PyInt.int s) as [sell|] eqn:Hs; cbn; [|intros [= <-]; by left].
  destruct (row !! 3%nat) as [b|]; cbn; [|done].
  destruct (PyInt.int b) as [buy|] eqn:Hb; cbn; [|intros [= <-]; by left].
  destruct (Z.ltb_spec 0 sell), (Z.ltb_spec 0 buy); cbn; intros [= <-];
    try (by left).
  right. exists c, s, b, sell, buy. done.
Qed.


Lemma archive_table_entries table : forall prices prices',
  for_each archive_row prices table = Ok prices' ->
  forall k v, prices' !! k = Some v ->
    prices !! k = Some v \/ archive_source table k v.
Proof.
  induction table as [|row table IH]; intros prices prices'; cbn.
  - intros [= <-] k q ?. by left.
  - destruct (archive_row prices row) as [p1|] eqn:Hrow; [|done].
    intros Hrest k v Hk. destruct (IH _ _ Hrest k v Hk) as [Hk1|Hsrc].
    + apply archive_row_ok in Hrow
        as [->|(c & s & b & sl & by_ & H0 & H2 & H3 & Hs & Hb & Hsl & Hby & ->)];
        [by left|].
      destruct (decide (Str.lower c = k)) as [<-|Hne].
      * rewrite lookup_insert_eq in Hk1. injection Hk1 as <-.
        right. exists row, c, s, b, {| sell := sl; buy := by_ |}. cbn.
        repeat split; try done. apply list_elem_of_here.
      * rewrite lookup_insert_ne in Hk1 by done. by left.
    + right. destruct Hsrc as (r & c & s & b & q & Hin & Hrest').
      exists r, c, s, b, q. split; [by apply list_elem_of_further|done].
Qed.

Section MoreHandlerFacts.

Variable pad_year : bool.
Variable dflt : defaults.
Variable up : upstream.

Lemma crawl_soup_ok url data s :
  outcome (crawl_soup up url data) = Ok s ->
  exists response,
    httpx_post up url data = Some response
    /\ post_status_code response = 200 /\ post_soup response = s.
Proof.
  unfold crawl_soup, post. rewrite !outcome_bind. cbn [outcome emit snd].
  destruct (httpx_post up url data) as [r|]; [|done]. cbn [outcome ret snd].
  destruct (Z.eqb_spec (post_status_code r) 200) as [H200|]; cbn; [|done].
  intros [= <-]. by exists r.
Qed.

Lemma crawl_soup_200 url data response :
  httpx_post up url data = Some response ->
  post_status_code response = 200 ->
  crawl_soup up url data = ([Post url data], Ok (post_soup response)).
Proof.
  intros Hp H200. unfold crawl_soup, post. rewrite Hp.
  cbv [mbind M_mbind bind emit ret]. cbn [app]. by rewrite H200.
Qed.

Lemma read_historical_invalid currency date :
  strptime_ym date = None ->
  read_historical_currency pad_year dflt up currency (Some date)
  = ([], Raise (HTTPException 422 "Invalid Date format. Expected YYYY-MM")).
Proof. unfold read_historical_currency. cbv zeta. cbn [from_option id]. by intros ->. Qed.

Lemma read_historical_valid currency date dt :
  strptime_ym date = Some dt ->
  read_historical_currency pad_year dflt up currency (Some date)
  = (soup ← crawl_soup up (BONBAST_URL ++ "/historical")
               [("date", strftime_ymd pad_year dt); ("currency", currency)];
     match head soup with
     | None => raise AttributeError
     | Some table_soup =>
         lift (for_each historical_row ∅ (map cells (drop 1 table_soup)))
     end).
Proof. unfold read_historical_currency. cbv zeta. cbn [from_option id]. by intros ->. Qed.

Lemma read_historical_no_http currency date dt status detail :
  strptime_ym date = Some dt ->
  outcome (read_historical_currency pad_year dflt up currency (Some date))
  <> Raise (HTTPException status detail).
Proof.
  intros Hd. rewrite (read_historical_valid currency date dt Hd). intros H.
  apply bind_raise_inv in H as [H|(s & _ & H)].
  - apply crawl_soup_raise in H as [?|[msg ?]]; done.
  - destruct (head s); [|done]. rewrite outcome_lift in H.
    apply (for_each_raise (fun e => e = IndexError)) in H; [done|].
    intros ? ? ?. apply historical_row_raise.
Qed.

End MoreHandlerFacts.

Lemma range_eq n : range n = Z.of_nat <$> seq 0 (Z.to_nat n).
Proof. reflexivity. Qed.

(** ** C1: one entry per day of the range *)

(** C1 (amended).  For a start and an end date that parse, whenever
    [GET /archive/range] returns a mapping, the mapping has exactly
    [max 0 ((end_date - start_date).days + 1)] keys: its keys are the
    date strings of the days from the start date to the end date, both
    included, and the entry of a day is the dict that [/archive/]
    returns for that day, without its "date" field, stored under the
    date string popped from it.  The handler does return a mapping when
    the single-day call of every day of the range returns a dict whose
    "date" field is still a date string. *)
Theorem archive_range_one_entry_per_day pad_year dflt up s e ds de :
  strptime_ymd s = Some ds ->
  strptime_ymd e = Some de ->
  let n := sub_days de ds + 1 in
  let key i := day_key pad_year ds i in
  (forall m,
     outcome (read_archive_range pad_year dflt up s (Some e)) = Ok m ->
     size m = Z.to_nat n
     /\ (forall k, is_Some (m !! k) <-> exists i, 0 <= i < n /\ k = key i)
     /\ (forall i, 0 <= i < n ->
          exists price,
            outcome (read_archive pad_year dflt up (Some (key i))) = Ok price
            /\ price !! "date" = Some (DateStr (key i))
            /\ m !! key i = Some (delete "date" price)))
  /\ ((forall i, 0 <= i < n ->
         exists price date,
           outcome (read_archive pad_year dflt up (Some (key i))) = Ok price
           /\ price !! "date" = Some (DateStr date)) ->
      exists m, outcome (read_archive_range pad_year dflt up s (Some e)) = Ok m).
Proof.
  intros Hs He n key.
  pose proof (strptime_ymd_valid _ _ Hs) as Hvs.
  pose proof (strptime_ymd_valid _ _ He) as Hve.
  pose proof (toordinal_bounds _ Hvs) as Hbs.
  pose proof (toordinal_bounds _ Hve) as Hbe.
  rewrite (read_archive_range_valid _ _ _ _ _ _ _ Hs He), range_eq.
  fold n. unfold sub_days in n.
  assert (Hmax : toordinal ds + Z.of_nat (0 + Z.to_nat n) <= MAXORDINAL + 1) by lia.
  split.
  - intros m Hm.
    destruct (range_loop_ok pad_year dflt up ds Hvs _ _ _ _ Hmax Hm) as [Hin Hout].
    assert (Hdays : forall i, 0 <= i < n ->
              exists price,
                outcome (read_archive pad_year dflt up (Some (key i))) = Ok price
                /\ price !! "date" = Some (DateStr (key i))
                /\ strptime_ymd (key i) = Some (day_of ds i)
                /\ m !! key i = Some (delete "date" price)).
    { intros i Hi. destruct (Hin (Z.to_nat i) ltac:(lia)) as (p & Hp).
      rewrite Z2Nat.id in Hp by lia. exists p. exact Hp. }
    assert (Hdom : forall k, is_Some (m !! k) <-> exists i, 0 <= i < n /\ k = key i).
    { intros k. split.
      - intros Hk.
        destruct (decide (Exists (fun j => k = key (Z.of_nat j)) (seq 0 (Z.to_nat n))))
          as [Hex|Hno].
        + apply Exists_exists in Hex as (j & Hj & ->).
          apply elem_of_seq in Hj. exists (Z.of_nat j). split; [lia|done].
        + rewrite Hout in Hk; [by destruct Hk|].
          intros j Hj ->. apply Hno, Exists_exists. exists j.
          split; [apply elem_of_seq; lia|done].
      - intros (i & Hi & ->). destruct (Hdays i Hi) as (p & _ & _ & _ & ->). eauto. }
    split; [|split; [done|]].
    + set (keys := (fun j => key (Z.of_nat j)) <$> seq 0 (Z.to_nat n)).
      assert (dom m = list_to_set keys) as Hd.
      { apply set_eq. intros k. rewrite elem_of_dom, Hdom, elem_of_list_to_set.
        unfold keys. rewrite list_elem_of_fmap. split.
        - intros (i & Hi & ->). exists (Z.to_nat i).
          rewrite Z2Nat.id by lia. split; [done|]. apply elem_of_seq. lia.
        - intros (j & -> & Hj). apply elem_of_seq in Hj.
          exists (Z.of_nat j). split; [lia|done]. }
      rewrite <- size_dom, Hd, size_list_to_set.
      * unfold keys. by rewrite length_fmap, length_seq.
      * apply NoDup_fmap_2_strong; [|apply NoDup_seq].
        intros i j Hi Hj Heq. apply elem_of_seq in Hi, Hj.
        destruct (Hdays (Z.of_nat i) ltac:(lia)) as (_ & _ & _ & Hpi & _).
        destruct (Hdays (Z.of_nat j) ltac:(lia)) as (_ & _ & _ & Hpj & _).
        apply (day_key_inj pad_year) in Heq; [lia|done|lia|lia|lia|lia|done|done].
    + intros i Hi. destruct (Hdays i Hi) as (p & H1 & H2 & _ & H3).
      exists p. exact (conj H1 (conj H2 H3)).
  - intros Hdays. apply (range_loop_returns pad_year dflt up ds Hvs); [done|].
    intros j Hj. apply Hdays. lia.
Qed.

(** C1 as stated fails when the start date is more than one day after
    the end date: the mapping returned is empty, and
    [(end_date - start_date).days + 1] is negative. *)
Lemma archive_range_keys_counterexample :
  ~ (forall pad_year dflt up s e ds de m,
       strptime_ymd s = Some ds ->
       strptime_ymd e = Some de ->
       outcome (read_archive_range pad_year dflt up s (Some e)) = Ok m ->
       Z.of_nat (size m) = sub_days de ds + 1).
Proof.
  intros H.
  specialize (H true sample_defaults sample_upstream "2024-01-03" "2024-01-01"
                {| year := 2024; month := 1; day := 3 |}
                {| year := 2024; month := 1; day := 1 |}
                ∅ eq_refl eq_refl eq_refl).
  vm_compute in H. discriminate H.
Qed.

(** The range from 2024-01-01 to 2024-01-03 over the sample page: three
    keys. *)
Lemma archive_range_one_entry_per_day_witness :
  exists m,
    outcome (read_archive_range true sample_defaults sample_upstream
               "2024-01-01" (Some "2024-01-03")) = Ok m
    /\ size m = 3%nat
    /\ is_Some (m !! "2024-01-01") /\ is_Some (m !! "2024-01-02")
    /\ is_Some (m !! "2024-01-03").
Proof.
  destruct (archive_range_one_entry_per_day true sample_defaults sample_upstream
              "2024-01-01" "2024-01-03"
              {| year := 2024; month := 1; day := 1 |}
              {| year := 2024; month := 1; day := 3 |} eq_refl eq_refl)
    as [Hok Hret].
  destruct Hret as [m Hm].
  { intros i Hi. change (sub_days _ _ + 1) with 3 in Hi.
    assert (i = 0 \/ i = 1 \/ i = 2) as [->|[->| ->]] by lia;
      eexists _, _; split; reflexivity. }
  exists m. destruct (Hok m Hm) as (Hsize & Hdom & _).
  split; [exact Hm|]. split; [exact Hsize|].
  repeat split; apply Hdom.
  - exists 0. split; [change (0 <= 0 < 3); lia|reflexivity].
  - exists 1. split; [change (0 <= 1 < 3); lia|reflexivity].
  - exists 2. split; [change (0 <= 2 < 3); lia|reflexivity].
Defined.

(** ** C10: an empty range *)

(** C10.  For a start and an end date that parse, the start date being
    strictly after the end date, [GET /archive/range] returns the empty
    mapping: nothing is raised and no event is produced, so no
    single-day fetch is made. *)
Theorem archive_range_start_after_end pad_year dflt up s e ds de :
  strptime_ymd s = Some ds ->
  strptime_ymd e = Some de ->
  before de ds ->
  read_archive_range pad_year dflt up s (Some e) = ([], Ok ∅).
Proof.
  intros Hs He Hlt.
  apply before_toordinal in Hlt;
    [|by eapply strptime_ymd_valid|by eapply strptime_ymd_valid].
  rewrite (read_archive_range_valid _ _ _ _ _ _ _ Hs He).
  unfold range, sub_days.
  replace (Z.to_nat (toordinal de - toordinal ds + 1)) with 0%nat by lia.
  reflexivity.
Qed.

(** The range from 2024-01-03 back to 2024-01-01. *)
Lemma archive_range_start_after_end_witness :
  read_archive_range true sample_defaults sample_upstream
    "2024-01-03" (Some "2024-01-01") = ([], Ok ∅).
Proof.
  apply (archive_range_start_after_end true sample_defaults sample_upstream
           "2024-01-03" "2024-01-01"
           {| year := 2024; month := 1; day := 3 |}
           {| year := 2024; month := 1; day := 1 |}).
  - reflexivity.
  - reflexivity.
  - right. split; [reflexivity|]. right. split; [reflexivity|]. cbn. lia.
Defined.

(** ** C2: a date that does not parse *)

Section RangeRaise.

Variable pad_year : bool.
Variable dflt : defaults.
Variable up : upstream.

Lemma range_step_http start acc i status detail :
  valid start -> 0 <= i -> toordinal start + i <= MAXORDINAL ->
  outcome (range_step pad_year dflt up start acc i)
  = Raise (HTTPException status detail) ->
  outcome (read_archive pad_year dflt up (Some (day_key pad_year start i)))
  = Raise (HTTPException status detail).
Proof.
  intros Hv Hi Hmax.
  destruct (add_days_in_range start i Hv Hi Hmax) as (Ha & _ & _).
  unfold range_step. rewrite Ha, lift_bind. intros H.
  apply bind_raise_inv in H as [H|(p & _ & H)]; [exact H|].
  apply bind_raise_inv in H as [H|([date p'] & _ & H)].
  - rewrite outcome_lift in H. unfold pop in H. by destruct (p !! "date").
  - rewrite outcome_lift in H. by destruct date.
Qed.

Lemma range_loop_http start :
  valid start ->
  forall (len k : nat) acc status detail,
    toordinal start + Z.of_nat (k + len) <= MAXORDINAL + 1 ->
    outcome (for_each_M (range_step pad_year dflt up start) acc
               (Z.of_nat <$> seq k len))
    = Raise (HTTPException status detail) ->
    exists j : nat,
      (k <= j < k + len)%nat
      /\ outcome (read_archive pad_year dflt up
                    (Some (day_key pad_year start (Z.of_nat j))))
         = Raise (HTTPException status detail).
Proof.
  intros Hv. induction len as [|len IH]; intros k acc status detail Hmax.
  - done.
  - cbn [seq fmap list_fmap]. rewrite outcome_for_each_M_cons.
    destruct (outcome (range_step pad_year dflt up start acc (Z.of_nat k)))
      as [acc1|e] eqn:Hstep.
    + intros H. apply IH in H as (j & Hj & H); [|lia]. exists j. split; [lia|exact H].
    + intros [= ->]. exists k. split; [lia|].
      apply (range_step_http start acc); [done|lia|lia|exact Hstep].
Qed.

Lemma read_archive_range_http s e ds de status detail :
  strptime_ymd s = Some ds -> strptime_ymd e = Some de ->
  outcome (read_archive_range pad_year dflt up s (Some e))
  = Raise (HTTPException status detail) ->
  pad_year = false /\ year ds < 1000.
Proof.
  intros Hs He.
  pose proof (strptime_ymd_valid _ _ Hs) as Hvs.
  pose proof (strptime_ymd_valid _ _ He) as Hve.
  pose proof (toordinal_bounds _ Hvs) as Hbs.
  pose proof (toordinal_bounds _ Hve) as Hbe.
  rewrite (read_archive_range_valid _ _ _ _ _ _ _ Hs He).
  unfold range, sub_days. intros H.
  apply (range_loop_http ds Hvs) in H as (j & Hj & H); [|lia].
  destruct (add_days_in_range ds (Z.of_nat j) Hvs ltac:(lia) ltac:(lia))
    as (_ & Hvd & Hod).
  destruct (strptime_ymd (day_key pad_year ds (Z.of_nat j))) as [dt|] eqn:Hp.
  - by apply (read_archive_no_http pad_year dflt up _ dt status detail) in H.
  - unfold day_key in Hp. rewrite strptime_strftime_ymd in Hp by done.
    destruct pad_year; [done|]. split; [done|].
    destruct (Z.leb_spec 1000 (year (day_of ds (Z.of_nat j)))); [done|].
    pose proof (toordinal_year_mono ds (day_of ds (Z.of_nat j)) Hvs Hvd ltac:(lia)).
    lia.
Qed.

End RangeRaise.

(** C2.  A date string that does not parse in the format of its
    endpoint (YYYY-MM for [/historical/{currency}], YYYY-MM-DD for
    [/archive/] and for both dates of [/archive/range]) yields HTTP 422
    with a fixed detail that begins with "Invalid Date format.", and no
    event: no upstream fetch is made.  A string that parses raises no
    HTTP error in [/historical] and [/archive/]; in [/archive/range] the
    validation raises none either: an HTTP error after it can only come
    from a single-day call, on a C library that prints a year below 1000
    without leading zeros. *)
Theorem invalid_date_is_422 pad_year dflt up :
  (forall currency date,
     match strptime_ym date with
     | None =>
         read_historical_currency pad_year dflt up currency (Some date)
         = ([], Raise (HTTPException 422 "Invalid Date format. Expected YYYY-MM"))
     | Some _ =>
         forall status detail,
           outcome (read_historical_currency pad_year dflt up currency (Some date))
           <> Raise (HTTPException status detail)
     end)
  /\ (forall date,
        match strptime_ymd date with
        | None =>
            read_archive pad_year dflt up (Some date)
            = ([], Raise (HTTPException 422 "Invalid Date format. Expected YYYY-MM-DD"))
        | Some _ =>
            forall status detail,
              outcome (read_archive pad_year dflt up (Some date))
              <> Raise (HTTPException status detail)
        end)
  /\ (forall start_date end_date,
        match strptime_ymd start_date, strptime_ymd end_date with
        | Some ds, Some _ =>
            forall status detail,
              outcome (read_archive_range pad_year dflt up start_date (Some end_date))
              = Raise (HTTPException status detail) ->
              pad_year = false /\ year ds < 1000
        | _, _ =>
            read_archive_range pad_year dflt up start_date (Some end_date)
            = ([], Raise (HTTPException 422 "Invalid Date format. Expected YYYY-MM-DD"))
        end)
  /\ Str.startswith "Invalid Date format." "Invalid Date format. Expected YYYY-MM" = true
  /\ Str.startswith "Invalid Date format." "Invalid Date format. Expected YYYY-MM-DD" = true.
Proof.
  split; [|split; [|split; [|split; reflexivity]]].
  - intros currency date. destruct (strptime_ym date) as [dt|] eqn:Hd.
    + intros status detail. by apply (read_historical_no_http _ _ _ _ _ dt).
    + by apply read_historical_invalid.
  - intros date. destruct (strptime_ymd date) as [dt|] eqn:Hd.
    + intros status detail. by apply (read_archive_no_http _ _ _ _ dt).
    + by apply read_archive_invalid.
  - intros s e. destruct (strptime_ymd s) as [ds|] eqn:Hs.
    + destruct (strptime_ymd e) as [de|] eqn:He.
      * intros status detail. by apply (read_archive_range_http _ _ _ s e ds de).
      * apply read_archive_range_invalid. by right.
    + apply read_archive_range_invalid. by left.
Qed.

(** ** C3: rows that are skipped *)

Section Entries.

Variable pad_year : bool.
Variable dflt : defaults.
Variable up : upstream.


Lemma read_archive_entries date prices k v :
  outcome (read_archive pad_year dflt up (Some date)) = Ok prices ->
  prices !! k = Some v ->
  (k = "date" /\ exists s, v = DateStr s)
  \/ exists url data response,
       httpx_post up url data = Some response
       /\ archive_source (merge_and_extract_tables (but_last (post_soup response))) k v.
Proof.
  destruct (strptime_ymd date) as [dt|] eqn:Hd;
    [|by rewrite read_archive_invalid].
  rewrite (read_archive_valid _ _ _ date dt Hd). intros H Hk.
  apply bind_ok_inv in H as (s & Hs & H).
  apply crawl_soup_ok in Hs as (response & Hpost & _ & <-).
  rewrite outcome_lift in H.
  destruct (archive_table_entries _ _ _ H k v Hk) as [Hinit|Hsrc].
  - left. apply lookup_singleton_Some in Hinit as [<- <-]. eauto.
  - right. by exists (BONBAST_URL ++ "/archive"),
      [("date", strftime_ymd pad_year dt)], response.
Qed.

End Entries.


(** ** Lower case *)

Lemma lower_char_idempotent c : Str.lower_char (Str.lower_char c) = Str.lower_char c.
Proof. destruct c as [[] [] [] [] [] [] [] []]; reflexivity. Qed.

Lemma lower_idempotent s : Str.lower (Str.lower s) = Str.lower s.
Proof.
  induction s as [|c s IH]; [done|].
  cbn [Str.lower]. by rewrite lower_char_idempotent, IH.
Qed.

(** The keys of the dict comprehension of [read_latest]. *)
Lemma latest_keys (currencies : list currency) : forall (d : gmap string quote) k,
  is_Some (foldl (fun d c =>
                    <[Str.lower (code c) :=
                        {| sell := currency_sell c; buy := currency_buy c |}]> d)
                 d currencies !! k) ->
  is_Some (d !! k) \/ exists c, c ∈ currencies /\ k = Str.lower (code c).
Proof.
  induction currencies as [|c l IH]; intros d k; cbn [foldl]; [by left|].
  intros H. apply IH in H as [H|(c' & Hin & ->)].
  - destruct (decide (Str.lower (code c) = k)) as [<-|Hne].
    + right. exists c. split; [apply list_elem_of_here|done].
    + rewrite lookup_insert_ne in H by done. by left.
  - right. exists c'. split; [by apply list_elem_of_further|done].
Qed.

Lemma read_latest_ok up d :
  outcome (read_latest up) = Ok d ->
  exists token currencies,
    get_token_from_main_page up = Ok token
    /\ get_prices_from_api up token = Ok (currencies, tt, tt)
    /\ d = foldl (fun d c =>
                    <[Str.lower (code c) :=
                        {| sell := currency_sell c; buy := currency_buy c |}]> d)
                 ∅ currencies.
Proof.
  unfold read_latest. intros H.
  apply bind_ok_inv in H as (token & Ht & H).
  apply bind_ok_inv in Ht as ([] & _ & Ht). rewrite outcome_lift in Ht.
  apply bind_ok_inv in H as ([[currencies []] []] & Hp & H).
  apply bind_ok_inv in Hp as ([] & _ & Hp). rewrite outcome_lift in Hp.
  injection H as <-. by exists token, currencies.
Qed.

(** ** C7: lower-case currency keys *)

(** C7.  Every key of the mapping of [GET /latest], and every key other
    than "date" of the mapping of [GET /archive/], is the lower-cased
    code of an upstream currency (the first cell of a row, for
    [/archive/]); lower-casing such a key again does not change it. *)
Theorem currency_keys_are_lower_case :
  (forall up d k,
     outcome (read_latest up) = Ok d ->
     is_Some (d !! k) ->
     Str.lower k = k
     /\ exists token currencies c,
          get_prices_from_api up token = Ok (currencies, tt, tt)
          /\ c ∈ currencies /\ k = Str.lower (code c))
  /\ (forall pad_year dflt up date prices k,
        outcome (read_archive pad_year dflt up (Some date)) = Ok prices ->
        is_Some (prices !! k) ->
        k <> "date" ->
        Str.lower k = k
        /\ exists url data response row c,
             httpx_post up url data = Some response
             /\ row ∈ merge_and_extract_tables (but_last (post_soup response))
             /\ row !! 0%nat = Some c /\ k = Str.lower c).
Proof.
  split.
  - intros up d k Hd Hk.
    apply read_latest_ok in Hd as (token & currencies & _ & Hp & ->).
    apply latest_keys in Hk as [Hk|(c & Hin & ->)].
    + rewrite lookup_empty in Hk. by destruct Hk.
    + split; [apply lower_idempotent|]. by exists token, currencies, c.
  - intros pad_year dflt up date prices k Hp [v Hk] Hne.
    destruct (read_archive_entries _ _ _ _ _ _ _ Hp Hk)
      as [[-> _]|(url & data & response & Hpost & Hsrc)]; [done|].
    destruct Hsrc as (row & c & s & b & q & Hin & H0 & _ & _ & -> & _).
    split; [apply lower_idempotent|]. by exists url, data, response, row, c.
Qed.

(** ** C8: rows with too few cells *)

(** C8.  Some row with fewer than three cells makes the row processing
    of [/historical] raise [IndexError], and some row with fewer than
    four cells does so in [/archive/]; the error is not suppressed and
    becomes the outcome of the handler.  Row processing raises nothing
    but [IndexError], and only on such short rows. *)
Theorem short_row_raises_IndexError :
  (exists prices row,
     (length row < 3)%nat /\ historical_row prices row = Raise IndexError)
  /\ (exists prices row,
        (length row < 4)%nat /\ archive_row prices row = Raise IndexError)
  /\ (forall prices row e,
        historical_row prices row = Raise e ->
        e = IndexError /\ (length row < 3)%nat)
  /\ (forall prices row e,
        archive_row prices row = Raise e ->
        e = IndexError /\ (length row < 4)%nat)
  /\ (exists pad_year dflt up currency date,
        outcome (read_historical_currency pad_year dflt up currency date)
        = Raise IndexError)
  /\ (exists pad_year dflt up date,
        outcome (read_archive pad_year dflt up date) = Raise IndexError).
Proof.
  split; [|split; [|split; [|split; [|split]]]].
  - exists ∅, ["2024-01-01"; "58900"]. split; [cbn; lia|reflexivity].
  - exists ∅, ["USD"; "US Dollar"; "58900"]. split; [cbn; lia|reflexivity].
  - intros prices row e H. split; [by eapply historical_row_raise|].
    destruct row as [|d [|s [|b rest]]]; cbn; try lia.
    by rewrite historical_row_cells in H.
  - intros prices row e H. split; [by eapply archive_row_raise|].
    destruct row as [|c [|x [|s [|b rest]]]]; cbn; try lia.
    by rewrite archive_row_cells in H.
  - exists true, sample_defaults.
    exists {| httpx_post := fun _ _ =>
                Some {| post_status_code := 200;
                        post_soup := [[[cell "Date"; cell "Sell"; cell "Buy"];
                                       [cell "2024-01-01"; cell "58900"]]] |};
              httpx_get := httpx_get sample_upstream;
              status_error_str := status_error_str sample_upstream;
              get_token_from_main_page := get_token_from_main_page sample_upstream;
              get_prices_from_api := get_prices_from_api sample_upstream |}.
    exists "usd", (Some "2024-01"). reflexivity.
  - exists true, sample_defaults.
    exists {| httpx_post := fun _ _ =>
                Some {| post_status_code := 200;
                        post_soup := [[[cell "Code"; cell "Currency"; cell "Sell"; cell "Buy"];
                                       [cell "USD"; cell "US Dollar"; cell "58900"]];
                                      []] |};
              httpx_get := httpx_get sample_upstream;
              status_error_str := status_error_str sample_upstream;
              get_token_from_main_page := get_token_from_main_page sample_upstream;
              get_prices_from_api := get_prices_from_api sample_upstream |}.
    exists (Some "2024-01-01"). reflexivity.
Qed.

(** ** Tables *)

Lemma foldl_snoc_map {A B} (f : A -> B) (l : list A) : forall acc,
  foldl (fun acc x => (acc ++ [f x])%list) acc l = (acc ++ map f l)%list.
Proof.
  induction l as [|x l IH]; intros acc; cbn [foldl map].
  - by rewrite app_nil_r.
  - by rewrite IH, <- app_assoc.
Qed.

Lemma merge_and_extract_tables_concat (tables : list Table) :
  merge_and_extract_tables tables
  = concat ((fun table => map cells (drop 1 table)) <$> tables).
Proof.
  unfold merge_and_extract_tables.
  enough (forall acc,
            foldl (fun tables table_soup =>
                     foldl (fun tables tr => (tables ++ [cells tr])%list)
                           tables (drop 1 table_soup)) acc tables
            = (acc ++ concat ((fun table => map cells (drop 1 table)) <$> tables))%list)
    as H by apply (H []).
  induction tables as [|t l IH]; intros acc; cbn [foldl fmap list_fmap concat].
  - by rewrite app_nil_r.
  - by rewrite IH, foldl_snoc_map, <- app_assoc.
Qed.

Lemma but_last_removelast {A} (l : list A) : but_last l = removelast l.
Proof.
  unfold but_last. rewrite removelast_firstn_len.
  by rewrite Nat.sub_1_r.
Qed.

(** ** C9: the tables read by /archive/ *)

(** C9.  [merge_and_extract_tables] drops the first row of each table
    and concatenates the cell texts of the other rows, tables and rows
    in document order; [/archive/] applies it to all the tables of the
    page but the last one. *)
Theorem archive_rows_from_all_tables_but_the_last :
  (forall tables : list Table,
     merge_and_extract_tables tables
     = concat ((fun table => map cells (drop 1 table)) <$> tables))
  /\ (forall (tables : BeautifulSoup) last, but_last (tables ++ [last]) = tables)
  /\ but_last ([] : BeautifulSoup) = []
  /\ (forall pad_year dflt up date dt response,
        strptime_ymd date = Some dt ->
        httpx_post up (BONBAST_URL ++ "/archive")
          [("date", strftime_ymd pad_year dt)] = Some response ->
        post_status_code response = 200 ->
        outcome (read_archive pad_year dflt up (Some date))
        = for_each archive_row
            {["date" := DateStr (strftime_ymd pad_year dt)]}
            (concat ((fun table => map cells (drop 1 table))
                       <$> removelast (post_soup response)))).
Proof.
  split; [|split; [|split]].
  - apply merge_and_extract_tables_concat.
  - intros tables last. rewrite but_last_removelast. apply removelast_last.
  - reflexivity.
  - intros pad_year dflt up date dt response Hd Hpost H200.
    rewrite (read_archive_valid _ _ _ date dt Hd).
    rewrite (crawl_soup_200 up _ _ response Hpost H200).
    rewrite outcome_bind. cbn [outcome snd]. 
    by rewrite merge_and_extract_tables_concat, but_last_removelast.
Qed.

(** ** C4: the status of the crypto API *)

(** C4.  When the crypto API answers with a status outside 200..299,
    [GET /crypto] raises an HTTP error with that same status; when the
    status is in 200..299 it returns the field [result.symbols] of the
    JSON body, unchanged. *)
Theorem crypto_status_propagates up response :
  httpx_get up "https://api.wallex.ir/v1/markets" = Some response ->
  let status := get_status_code response in
  (~ (200 <= status <= 299) ->
   get_crypto_prices up
   = ([Get "https://api.wallex.ir/v1/markets"],
      Raise (HTTPException status
               (status_error_str up "https://api.wallex.ir/v1/markets" status))))
  /\ (200 <= status <= 299 ->
      forall data result symbols,
        get_json response = Some data ->
        subscript data "result" = Ok result ->
        subscript result "symbols" = Ok symbols ->
        get_crypto_prices up
        = ([Get "https://api.wallex.ir/v1/markets"], Ok symbols)).
Proof.
  intros Hget status. unfold get_crypto_prices, client_get, raise_for_status.
  rewrite Hget. subst status.
  set (status := get_status_code response).
  cbv [mbind M_mbind bind emit ret raise try_except lift app].
  fold status. split.
  - intros Hbad.
    assert ((200 <=? status) && (status <=? 299) = false) as ->.
    { destruct (Z.leb_spec 200 status), (Z.leb_spec status 299); try done. lia. }
    reflexivity.
  - intros Hok data result symbols Hjson Hres Hsym.
    assert ((200 <=? status) && (status <=? 299) = true) as ->.
    { destruct (Z.leb_spec 200 status), (Z.leb_spec status 299); try done; lia. }
    unfold response_json. rewrite Hjson.
    cbv [result_mbind result_bind mbind]. rewrite Hres, Hsym. reflexivity.
Qed.

(** An upstream 503 is a 503 of [GET /crypto]. *)
Lemma crypto_status_propagates_witness :
  get_crypto_prices sample_upstream
  = ([Get "https://api.wallex.ir/v1/markets"],
     Raise (HTTPException 503 "Server error '503 Service Unavailable'")).
Proof.
  refine (proj1 (crypto_status_propagates sample_upstream
                   {| get_status_code := 503; get_json := None |} eq_refl) _).
  cbn. lia.
Defined.





(** ** C6: the rounds of the poller *)


(** ** C5: the default dates *)

(** C5.  The defaults are computed once, when the module is loaded, not
    when a request arrives.  With the module loaded on 2024-01-31 and a
    request made on 2024-03-15: [/historical/usd] without date asks
    upstream for January 2024, where the current year-month is 2024-03;
    [/archive/] without date asks for 2024-01-30, where yesterday is
    2024-03-14; and [/archive/range] without end date takes 2024-01-30. *)
Theorem default_dates_are_those_of_the_import :
  let import_day := {| year := 2024; month := 1; day := 31 |} in
  let request_day := {| year := 2024; month := 3; day := 15 |} in
  forall pad_year up,
    let dflt := module_defaults pad_year import_day in
    events (read_historical_currency pad_year dflt up "usd" None)
    = [Post "https://www.bonbast.com/historical"
         [("date", "2024-01-01"); ("currency", "usd")]]
    /\ strftime_ym pad_year request_day = "2024-03"
    /\ events (read_archive pad_year dflt up None)
       = [Post "https://www.bonbast.com/archive" [("date", "2024-01-30")]]
    /\ strftime_ymd pad_year (yesterday request_day) = "2024-03-14"
    /\ read_archive_range pad_year dflt up "2024-03-14" None
       = read_archive_range pad_year dflt up "2024-03-14" (Some "2024-01-30").
Proof.
  intros import_day request_day pad_year up dflt.
  assert (Hh : historical_date dflt = "2024-01") by (by destruct pad_year).
  assert (Ha : archive_date dflt = "2024-01-30") by (by destruct pad_year).
  assert (Hr : range_end_date dflt = "2024-01-30") by (by destruct pad_year).
  split; [|split; [|split; [|split]]].
  - change (read_historical_currency pad_year dflt up "usd" None)
      with (read_historical_currency pad_year dflt up "usd"
              (Some (historical_date dflt))).
    rewrite Hh.
    rewrite (read_historical_valid pad_year dflt up "usd" "2024-01"
               {| year := 2024; month := 1; day := 1 |} eq_refl).
    replace (strftime_ymd pad_year {| year := 2024; month := 1; day := 1 |})
      with "2024-01-01" by (by destruct pad_year).
    rewrite events_bind, crawl_soup_events.
    destruct (outcome (crawl_soup up _ _)) as [s|]; [|reflexivity].
    by destruct (head s).
  - by destruct pad_year.
  - change (read_archive pad_year dflt up None)
      with (read_archive pad_year dflt up (Some (archive_date dflt))).
    rewrite Ha.
    rewrite (read_archive_valid pad_year dflt up "2024-01-30"
               {| year := 2024; month := 1; day := 30 |} eq_refl).
    replace (strftime_ymd pad_year {| year := 2024; month := 1; day := 30 |})
      with "2024-01-30" by (by destruct pad_year).
    rewrite events_bind, crawl_soup_events.
    by destruct (outcome (crawl_soup up _ _)).
  - by destruct pad_year.
  - change (read_archive_range pad_year dflt up "2024-03-14" None)
      with (read_archive_range pad_year dflt up "2024-03-14"
              (Some (range_end_date dflt))).
    by rewrite Hr.
Qed.

(** * Further properties of the handlers and of the poller *)

(** Assignments [d[k] = v] in list order build the dict in which the
    last assignment to a key wins. *)
Lemma foldl_insert_list_to_map {V} (l : list (string * V)) : forall m : gmap string V,
  foldl (fun m kv => <[kv.1 := kv.2]> m) m l = list_to_map (reverse l) ∪ m.
Proof.
  induction l as [|[k v] l IH]; intros m; cbn [foldl].
  - rewrite reverse_nil. cbn [list_to_map foldr]. by rewrite (left_id_L ∅ (∪)).
  - rewrite IH, reverse_cons, list_to_map_app. cbn [list_to_map foldr fst snd].
    rewrite insert_empty, <- (assoc_L (∪)). f_equal.
    by rewrite <- insert_union_singleton_l.
Qed.

Lemma historical_row_entry prices row prices' :
  historical_row prices row = Ok prices' ->
  prices' = match historical_entry row with
            | Some kv => <[kv.1 := kv.2]> prices
            | None => prices
            end.
Proof.
  destruct row as [|date [|s [|b rest]]].
  - done.
  - done.
  - unfold historical_row, getitem, int. cbn.
    destruct (PyInt.int s); cbn; [done|]. by intros [= <-].
  - rewrite historical_row_cells. intros [= <-]. cbn [historical_entry].
    destruct (PyInt.int s); [|done]. destruct (PyInt.int b); [|done].
    by destruct (_ && _).
Qed.

Lemma archive_row_entry prices row prices' :
  archive_row prices row = Ok prices' ->
  prices' = match archive_entry row with
            | Some kv => <[kv.1 := kv.2]> prices
            | None => prices
            end.
Proof.
  destruct row as [|c [|x [|s [|b rest]]]].
  - done.
  - done.
  - done.
  - unfold archive_row, getitem, int. cbn.
    destruct (PyInt.int s); cbn; [done|]. by intros [= <-].
  - rewrite archive_row_cells. intros [= <-]. cbn [archive_entry].
    destruct (PyInt.int s); [|done]. destruct (PyInt.int b); [|done].
    by destruct (_ && _).
Qed.

Lemma for_each_entries {V} (body : gmap string V -> list string -> result (gmap string V))
    (entry_of : list string -> option (string * V)) :
  (forall prices row prices',
     body prices row = Ok prices' ->
     prices' = match entry_of row with
               | Some kv => <[kv.1 := kv.2]> prices
               | None => prices
               end) ->
  forall table prices prices',
    for_each body prices table = Ok prices' ->
    prices' = list_to_map (reverse (omap entry_of table)) ∪ prices.
Proof.
  intros Hbody table prices prices' H.
  rewrite <- foldl_insert_list_to_map.
  revert prices H. induction table as [|row table IH]; intros prices; cbn.
  - by intros [= <-].
  - destruct (body prices row) as [p1|] eqn:Hrow; [|done].
    apply Hbody in Hrow as ->. intros H. apply IH in H as ->.
    by destruct (entry_of row).
Qed.

Lemma for_each_long_rows {V} (body : gmap string V -> list string -> result (gmap string V))
    (n : nat) :
  (forall prices row, (n <= length row)%nat -> exists prices', body prices row = Ok prices') ->
  forall table prices,
    Forall (fun row => (n <= length row)%nat) table ->
    exists prices', for_each body prices table = Ok prices'.
Proof.
  intros Hbody table. induction table as [|row table IH]; intros prices Hall; cbn.
  - eauto.
  - apply Forall_cons in Hall as [Hrow Hall].
    destruct (Hbody prices row Hrow) as [p1 ->]. by apply IH.
Qed.

(** ** Sample data for [/historical] *)

Section Mappings.

Variable pad_year : bool.
Variable dflt : defaults.
Variable up : upstream.

Lemma read_historical_200 currency date dt response :
  strptime_ym date = Some dt ->
  httpx_post up (BONBAST_URL ++ "/historical")
    [("date", strftime_ymd pad_year dt); ("currency", currency)] = Some response ->
  post_status_code response = 200 ->
  outcome (read_historical_currency pad_year dflt up currency (Some date))
  = match head (post_soup response) with
    | Some table => for_each historical_row ∅ (map cells (drop 1 table))
    | None => Raise AttributeError
    end.
Proof.
  intros Hd Hpost H200.
  rewrite (read_historical_valid _ _ _ currency date dt Hd).
  rewrite (crawl_soup_200 up _ _ response Hpost H200), outcome_bind.
  cbn [outcome snd]. by destruct (head (post_soup response)).
Qed.

Lemma read_archive_200 date dt response :
  strptime_ymd date = Some dt ->
  httpx_post up (BONBAST_URL ++ "/archive")
    [("date", strftime_ymd pad_year dt)] = Some response ->
  post_status_code response = 200 ->
  outcome (read_archive pad_year dflt up (Some date))
  = for_each archive_row {["date" := DateStr (strftime_ymd pad_year dt)]}
      (merge_and_extract_tables (but_last (post_soup response))).
Proof.
  intros Hd Hpost H200.
  rewrite (read_archive_valid _ _ _ date dt Hd).
  rewrite (crawl_soup_200 up _ _ response Hpost H200), outcome_bind.
  reflexivity.
Qed.

End Mappings.

(** X1.  When [/historical/{currency}] is answered with status 200 and a
    page with a table, the mapping it returns is fixed by the rows of the
    first table after its header row: a row with positive integers in
    its second and third cells gives the entry of its first cell, any
    other row gives none, and of two rows with the same first cell the
    later one is kept.  The handler does return this mapping when every
    row has three cells at least. *)
Theorem historical_mapping_last_row_wins pad_year dflt up currency date dt response table :
  strptime_ym date = Some dt ->
  httpx_post up (BONBAST_URL ++ "/historical")
    [("date", strftime_ymd pad_year dt); ("currency", currency)] = Some response ->
  post_status_code response = 200 ->
  head (post_soup response) = Some table ->
  let rows := map cells (drop 1 table) in
  let mapping : gmap string quote := list_to_map (reverse (omap historical_entry rows)) in
  (forall prices,
     outcome (read_historical_currency pad_year dflt up currency (Some date)) = Ok prices ->
     prices = mapping)
  /\ (Forall (fun row => (3 <= length row)%nat) rows ->
      outcome (read_historical_currency pad_year dflt up currency (Some date)) = Ok mapping).
Proof.
  intros Hd Hpost H200 Htable rows mapping.
  rewrite (read_historical_200 _ _ _ currency date dt response Hd Hpost H200), Htable.
  fold rows.
  assert (Hok : forall prices, for_each historical_row ∅ rows = Ok prices -> prices = mapping).
  { intros prices H.
    apply (for_each_entries _ historical_entry historical_row_entry) in H.
    by rewrite (right_id_L ∅ (∪)) in H. }
  split; [exact Hok|].
  intros Hlong.
  destruct (for_each_long_rows historical_row 3) with (table := rows) (prices := (∅ : gmap string quote))
    as [prices Hp]; [|done|].
  - intros prices [|d [|s [|b rest]]] Hlen; cbn in Hlen; try lia.
    rewrite historical_row_cells. eauto.
  - by rewrite Hp, (Hok prices Hp).
Qed.

Lemma historical_mapping_last_row_wins_witness :
  outcome (read_historical_currency true sample_defaults sample_history_upstream
             "usd" (Some "2024-01"))
  = Ok (<["2024-01-01" := {| sell := 59000; buy := 58900 |}]> ∅).
Proof.
  refine (proj2 (historical_mapping_last_row_wins true sample_defaults
                   sample_history_upstream "usd" "2024-01"
                   {| year := 2024; month := 1; day := 1 |}
                   {| post_status_code := 200; post_soup := sample_history_page |}
                   _ eq_refl eq_refl eq_refl eq_refl) _).
  repeat constructor.
Defined.

(** X2.  When [/archive/] is answered with status 200, the mapping it
    returns is fixed by the rows of all the tables but the last, header
    rows apart: a row with positive integers in its third and fourth
    cells gives the entry of its first cell in lower case, and of two
    rows with the same key the later one is kept; the "date" field is
    the date printed as YYYY-MM-DD unless a row is itself named "date".
    The handler does return this mapping when every row has four cells
    at least. *)
Theorem archive_mapping_last_row_wins pad_year dflt up date dt response :
  strptime_ymd date = Some dt ->
  httpx_post up (BONBAST_URL ++ "/archive")
    [("date", strftime_ymd pad_year dt)] = Some response ->
  post_status_code response = 200 ->
  let rows := merge_and_extract_tables (but_last (post_soup response)) in
  let mapping : gmap string entry :=
    list_to_map (reverse (omap archive_entry rows))
    ∪ {["date" := DateStr (strftime_ymd pad_year dt)]} in
  (forall prices,
     outcome (read_archive pad_year dflt up (Some date)) = Ok prices ->
     prices = mapping)
  /\ (Forall (fun row => (4 <= length row)%nat) rows ->
      outcome (read_archive pad_year dflt up (Some date)) = Ok mapping).
Proof.
  intros Hd Hpost H200 rows mapping.
  rewrite (read_archive_200 _ _ _ date dt response Hd Hpost H200).
  fold rows.
  set (init := ({["date" := DateStr (strftime_ymd pad_year dt)]} : gmap string entry)).
  assert (Hok : forall prices, for_each archive_row init rows = Ok prices -> prices = mapping).
  { intros prices H.
    by apply (for_each_entries _ archive_entry archive_row_entry) in H. }
  split; [exact Hok|].
  intros Hlong.
  destruct (for_each_long_rows archive_row 4) with (table := rows) (prices := init)
    as [prices Hp]; [|done|].
  - intros prices [|c [|x [|s [|b rest]]]] Hlen; cbn in Hlen; try lia.
    rewrite archive_row_cells. eauto.
  - by rewrite Hp, (Hok prices Hp).
Qed.

Lemma archive_mapping_last_row_wins_witness :
  outcome (read_archive true sample_defaults sample_upstream (Some "2024-1-15"))
  = Ok (<["usd" := Quote {| sell := 58900; buy := 58800 |}]>
          {["date" := DateStr "2024-01-15"]}).
Proof.
  refine (eq_trans
    (proj2 (archive_mapping_last_row_wins true sample_defaults sample_upstream
              "2024-1-15" {| year := 2024; month := 1; day := 15 |}
              {| post_status_code := 200; post_soup := sample_page |}
              eq_refl eq_refl eq_refl) _) _).
  - repeat constructor.
  - vm_compute. reflexivity.
Defined.





Section Requests.

Variable pad_year : bool.
Variable dflt : defaults.
Variable up : upstream.

Lemma read_archive_events date dt :
  strptime_ymd date = Some dt ->
  events (read_archive pad_year dflt up (Some date))
  = [Post (BONBAST_URL ++ "/archive") [("date", strftime_ymd pad_year dt)]].
Proof.
  intros Hd. rewrite (read_archive_valid _ _ _ date dt Hd).
  rewrite events_bind, crawl_soup_events.
  by destruct (outcome (crawl_soup up _ _)).
Qed.

Lemma read_historical_events currency date dt :
  strptime_ym date = Some dt ->
  events (read_historical_currency pad_year dflt up currency (Some date))
  = [Post (BONBAST_URL ++ "/historical")
       [("date", strftime_ymd pad_year dt); ("currency", currency)]].
Proof.
  intros Hd. rewrite (read_historical_valid _ _ _ currency date dt Hd).
  rewrite events_bind, crawl_soup_events.
  destruct (outcome (crawl_soup up _ _)) as [s|]; [|done].
  by destruct (head s).
Qed.

End Requests.





Section Failures.

Variable pad_year : bool.
Variable dflt : defaults.
Variable up : upstream.

Lemma crawl_soup_transport url data :
  httpx_post up url data = None ->
  crawl_soup up url data = ([Post url data], Raise RequestError).
Proof. intros Hp. unfold crawl_soup, post. by rewrite Hp. Qed.

Lemma crawl_soup_not_200 url data response :
  httpx_post up url data = Some response ->
  post_status_code response <> 200 ->
  crawl_soup up url data
  = ([Post url data], Raise (Exception ("Failed to crawl " ++ url))).
Proof.
  intros Hp H200. unfold crawl_soup, post. rewrite Hp.
  cbv [mbind M_mbind bind emit ret]. cbn [app].
  by destruct (Z.eqb_spec (post_status_code response) 200).
Qed.

End Failures.

(** X5.  The failures of the upstream page are not turned into HTTP
    errors.  For a date that parses, a transport failure of the POST
    leaves [/historical/{currency}] and [/archive/] with the transport
    error, a status other than 200 with the plain
    [Exception("Failed to crawl <url>")], and a page without any table
    leaves [/historical/{currency}] with an [AttributeError]. *)
Theorem upstream_failure_is_not_an_http_error pad_year dflt up :
  (forall currency date dt,
     strptime_ym date = Some dt ->
     let url := "https://www.bonbast.com/historical" in
     let data := [("date", strftime_ymd pad_year dt); ("currency", currency)] in
     (httpx_post up url data = None ->
      outcome (read_historical_currency pad_year dflt up currency (Some date))
      = Raise RequestError)
     /\ (forall response,
           httpx_post up url data = Some response ->
           post_status_code response <> 200 ->
           outcome (read_historical_currency pad_year dflt up currency (Some date))
           = Raise (Exception "Failed to crawl https://www.bonbast.com/historical"))
     /\ (forall response,
           httpx_post up url data = Some response ->
           post_status_code response = 200 ->
           post_soup response = [] ->
           outcome (read_historical_currency pad_year dflt up currency (Some date))
           = Raise AttributeError))
  /\ (forall date dt,
        strptime_ymd date = Some dt ->
        let url := "https://www.bonbast.com/archive" in
        let data := [("date", strftime_ymd pad_year dt)] in
        (httpx_post up url data = None ->
         outcome (read_archive pad_year dflt up (Some date)) = Raise RequestError)
        /\ (forall response,
              httpx_post up url data = Some response ->
              post_status_code response <> 200 ->
              outcome (read_archive pad_year dflt up (Some date))
              = Raise (Exception "Failed to crawl https://www.bonbast.com/archive"))).
Proof.
  split.
  - intros currency date dt Hd url data.
    rewrite (read_historical_valid _ _ _ currency date dt Hd).
    change (BONBAST_URL ++ "/historical")%string with url. fold data.
    split; [|split].
    + intros Hp. by rewrite (crawl_soup_transport up url data Hp).
    + intros response Hp H200.
      by rewrite (crawl_soup_not_200 up url data response Hp H200).
    + intros response Hp H200 Hempty.
      rewrite (crawl_soup_200 up url data response Hp H200), outcome_bind.
      cbn [outcome snd]. by rewrite Hempty.
  - intros date dt Hd url data.
    rewrite (read_archive_valid _ _ _ date dt Hd).
    change (BONBAST_URL ++ "/archive")%string with url. fold data.
    split.
    + intros Hp. by rewrite (crawl_soup_transport up url data Hp).
    + intros response Hp H200.
      by rewrite (crawl_soup_not_200 up url data response Hp H200).
Qed.

(** X6.  Since [/archive/] leaves the last table out, a page with one
    table or none gives a mapping with the "date" field only, whatever
    the rows of that table. *)
Theorem archive_of_a_page_with_one_table pad_year dflt up date dt response :
  strptime_ymd date = Some dt ->
  httpx_post up "https://www.bonbast.com/archive"
    [("date", strftime_ymd pad_year dt)] = Some response ->
  post_status_code response = 200 ->
  (length (post_soup response) <= 1)%nat ->
  outcome (read_archive pad_year dflt up (Some date))
  = Ok {["date" := DateStr (strftime_ymd pad_year dt)]}.
Proof.
  intros Hd Hp H200 Hlen.
  rewrite (read_archive_200 _ _ _ date dt response Hd Hp H200).
  destruct (post_soup response) as [|t [|t' l]]; [done|done|].
  cbn in Hlen. lia.
Qed.

Lemma archive_of_a_page_with_one_table_witness :
  outcome (read_archive true sample_defaults one_table_upstream (Some "2024-01-15"))
  = Ok {["date" := DateStr "2024-01-15"]}.
Proof.
  refine (archive_of_a_page_with_one_table true sample_defaults one_table_upstream
            "2024-01-15" {| year := 2024; month := 1; day := 15 |}
            {| post_status_code := 200; post_soup := one_table_page |}
            eq_refl eq_refl eq_refl _).
  cbn. lia.
Defined.

Section RangeEvents.

Variable pad_year : bool.
Variable dflt : defaults.
Variable up : upstream.







End RangeEvents.





Section Raises.

Variable pad_year : bool.
Variable dflt : defaults.
Variable up : upstream.





End Raises.


(** ** /latest *)

Lemma latest_dict_list_to_map (currencies : list currency) :
  foldl (fun d c =>
           <[Str.lower (code c) :=
               {| sell := currency_sell c; buy := currency_buy c |}]> d)
        (∅ : gmap string quote) currencies
  = list_to_map (reverse (latest_entry <$> currencies)).
Proof.
  rewrite <- (right_id_L ∅ (∪) (list_to_map _)).
  rewrite <- foldl_insert_list_to_map, foldl_fmap. reflexivity.
Qed.

Lemma size_list_to_map_le {V} (l : list (string * V)) :
  (size (list_to_map l : gmap string V) <= length l)%nat.
Proof.
  induction l as [|[k v] l IH]; cbn [list_to_map foldr length].
  - by rewrite map_size_empty.
  - change (foldr _ _ l) with (list_to_map l : gmap string V).
    rewrite map_size_insert. cbn [fst].
    destruct ((list_to_map l : gmap string V) !! k); cbv beta delta [id]; lia.
Qed.

Lemma read_latest_cases up :
  read_latest up
  = match get_token_from_main_page up with
    | Raise e => ([GetToken], Raise e)
    | Ok token =>
        match get_prices_from_api up token with
        | Raise e => ([GetToken; GetPrices token], Raise e)
        | Ok (currencies, _, _) =>
            ([GetToken; GetPrices token],
             Ok (list_to_map (reverse (latest_entry <$> currencies))))
        end
    end.
Proof.
  unfold read_latest.
  destruct (get_token_from_main_page up) as [token|e]; [|reflexivity].
  cbv [mbind M_mbind bind emit lift ret app].
  destruct (get_prices_from_api up token) as [[[currencies []] []]|e]; [|reflexivity].
  by rewrite latest_dict_list_to_map.
Qed.

(** X10.  When the token and the prices are obtained, [/latest] asks
    for the token, then for the prices with that token, and returns the
    dict of the currencies keyed by their codes in lower case, where of
    two currencies with the same lower-case code the later one is kept:
    every currency has its key in the dict, every entry comes from a
    currency, and the dict has at most as many entries as there are
    currencies. *)
Theorem latest_mapping_last_code_wins up token currencies :
  get_token_from_main_page up = Ok token ->
  get_prices_from_api up token = Ok (currencies, tt, tt) ->
  let d : gmap string quote := list_to_map (reverse (latest_entry <$> currencies)) in
  read_latest up = ([GetToken; GetPrices token], Ok d)
  /\ (forall c, c ∈ currencies -> is_Some (d !! Str.lower (code c)))
  /\ (forall k q, d !! k = Some q -> exists c, c ∈ currencies /\ latest_entry c = (k, q))
  /\ (size d <= length currencies)%nat.
Proof.
  intros Ht Hp d. split; [|split; [|split]].
  - by rewrite read_latest_cases, Ht, Hp.
  - intros c Hc. apply elem_of_dom. unfold d. rewrite dom_list_to_map_L.
    apply elem_of_list_to_set, list_elem_of_fmap.
    exists (latest_entry c). split; [done|].
    apply elem_of_reverse, list_elem_of_fmap. by exists c.
  - intros k q Hk. apply elem_of_list_to_map_2 in Hk.
    apply elem_of_reverse, list_elem_of_fmap in Hk as (c & Hc & Hin). by exists c.
  - etrans; [apply size_list_to_map_le|].
    by rewrite length_reverse, length_fmap.
Qed.

Lemma latest_mapping_last_code_wins_witness :
  read_latest mixed_case_upstream
  = ([GetToken; GetPrices "token"],
     Ok (<["usd" := {| sell := 59000; buy := 58950 |}]>
           (<["eur" := {| sell := 63200; buy := 63100 |}]> ∅))).
Proof.
  refine (eq_trans
    (proj1 (latest_mapping_last_code_wins mixed_case_upstream "token"
              [{| code := "USD"; currency_sell := 58900; currency_buy := 58800 |};
               {| code := "EUR"; currency_sell := 63200; currency_buy := 63100 |};
               {| code := "usd"; currency_sell := 59000; currency_buy := 58950 |}]
              eq_refl eq_refl)) _).
  vm_compute. reflexivity.
Defined.

(** ** /crypto *)




(** ** The poller *)









(** ** Tables *)

(** X15.  [merge_and_extract_tables] works table by table: the rows of
    a concatenation of two lists of tables are the rows of the first
    followed by the rows of the second; the number of rows is the sum
    over the tables of their number of [tr] less the header (none for
    an empty table); and each row has one text per [td] of its [tr]. *)
Theorem merge_tables_is_additive (tables1 tables2 : list Table) :
  merge_and_extract_tables (tables1 ++ tables2)
  = (merge_and_extract_tables tables1 ++ merge_and_extract_tables tables2)%list
  /\ length (merge_and_extract_tables tables1)
     = sum_list ((fun table => length table - 1)%nat <$> tables1)
  /\ Forall2 (fun row tr => length row = length tr)
       (merge_and_extract_tables tables1) (concat (drop 1 <$> tables1)).
Proof.
  rewrite !merge_and_extract_tables_concat. split; [|split].
  - by rewrite fmap_app, concat_app.
  - induction tables1 as [|t l IH]; [done|].
    cbn [fmap list_fmap concat sum_list sum_list_with].
    rewrite length_app, IH, length_map, length_drop. reflexivity.
  - induction tables1 as [|t l IH]; [constructor|].
    cbn [fmap list_fmap concat]. apply Forall2_app; [|exact IH].
    induction (drop 1 t) as [|tr rows IHr]; constructor; [|exact IHr].
    unfold cells. by rewrite length_map.
Qed.

(** ** Days and ordinals *)

Lemma toordinal_inj a b :
  valid a -> valid b -> toordinal a = toordinal b -> a = b.
Proof.
  intros Ha Hb Heq.
  assert (~ before a b) as Hab.
  { intros H. apply before_toordinal in H; [lia|done|done]. }
  assert (~ before b a) as Hba.
  { intros H. apply before_toordinal in H; [lia|done|done]. }
  unfold before in Hab, Hba.
  destruct a as [ya ma da], b as [yb mb db]. cbn [year month day] in *.
  assert (ya = yb) as -> by lia.
  assert (ma = mb) as -> by lia.
  assert (da = db) as -> by lia.
  reflexivity.
Qed.

Lemma ord2ymd_toordinal dt : valid dt -> ord2ymd (toordinal dt) = dt.
Proof.
  intros Hv. pose proof (toordinal_bounds dt Hv) as Hb.
  destruct (ord2ymd_valid (toordinal dt) Hb) as [Hv' Ho].
  by apply toordinal_inj.
Qed.

Lemma day_of_first start : valid start -> day_of start 0 = start.
Proof.
  intros Hv. unfold day_of. rewrite Z.add_0_r. by apply ord2ymd_toordinal.
Qed.





(** ** Years before 1000 *)

Lemma range_first_step {St} (body : St -> Z -> M St) (s : St) (n : Z) :
  0 < n ->
  for_each_M body s (range n)
  = (s' ← body s 0; for_each_M body s' (Z.of_nat <$> seq 1 (Z.to_nat n - 1)%nat)).
Proof.
  intros Hn. rewrite range_eq.
  replace (Z.to_nat n) with (S (Z.to_nat n - 1))%nat at 1 by lia.
  reflexivity.
Qed.

(** X17.  Where the C library prints a year below 1000 without leading
    zeros ([pad_year = false]), a start date before the year 1000 is
    accepted by [/archive/range], but the date string that the handler
    prints for the first day is refused by [/archive/]: with a start
    date not after the end date, the range answers 422 without any
    upstream request.  [/archive/] itself, called with such a date,
    posts the short date string upstream.  Where the year is printed on
    four digits, the printed date parses back to the same day. *)
Theorem archive_range_before_year_1000 dflt up s e ds de :
  strptime_ymd s = Some ds ->
  strptime_ymd e = Some de ->
  year ds < 1000 ->
  0 <= sub_days de ds ->
  strptime_ymd (strftime_ymd false ds) = None
  /\ events (read_archive false dflt up (Some s))
     = [Post "https://www.bonbast.com/archive" [("date", strftime_ymd false ds)]]
  /\ read_archive_range false dflt up s (Some e)
     = ([], Raise (HTTPException 422 "Invalid Date format. Expected YYYY-MM-DD"))
  /\ strptime_ymd (strftime_ymd true ds) = Some ds.
Proof.
  intros Hs He Hy Hn.
  pose proof (strptime_ymd_valid _ _ Hs) as Hvs.
  assert (strptime_ymd (strftime_ymd false ds) = None) as Hnone.
  { rewrite strptime_strftime_ymd by done.
    destruct (Z.leb_spec 1000 (year ds)); [lia|done]. }
  split; [exact Hnone|]. split; [|split].
  - exact (read_archive_events false dflt up s ds Hs).
  - rewrite (read_archive_range_valid _ _ _ _ _ _ _ Hs He).
    rewrite range_first_step by lia.
    unfold range_step.
    pose proof (toordinal_bounds _ Hvs) as Hb.
    destruct (add_days_in_range ds 0 Hvs ltac:(lia) ltac:(lia)) as (Ha & _ & _).
    rewrite Ha, day_of_first by done. rewrite lift_bind.
    rewrite (read_archive_invalid false dflt up _ Hnone). reflexivity.
  - by rewrite strptime_strftime_ymd.
Qed.

Lemma archive_range_before_year_1000_witness :
  read_archive_range false sample_defaults sample_upstream
    "0999-12-31" (Some "1000-01-01")
  = ([], Raise (HTTPException 422 "Invalid Date format. Expected YYYY-MM-DD")).
Proof.
  exact (proj1 (proj2 (proj2
    (archive_range_before_year_1000 sample_defaults sample_upstream
       "0999-12-31" "1000-01-01"
       {| year := 999; month := 12; day := 31 |}
       {| year := 1000; month := 1; day := 1 |}
       eq_refl eq_refl ltac:(vm_compute; reflexivity)
       ltac:(vm_compute; discriminate))))).
Defined.

(** ** The default dates *)

Lemma strptime_strftime_ym pad dt :
  valid dt ->
  strptime_ym (strftime_ym pad dt)
  = if pad || (1000 <=? year dt) then Some (first_of_month dt) else None.
Proof.
  intros Hv. pose proof (valid_fields dt Hv) as (Hy & Hm & Hd & Hd31).
  unfold strptime_ym, strftime_ym, fmt_Y.
  destruct (pad || (1000 <=? year dt)) eqn:Hpad.
  - destruct (pad4_shape (year dt)) as (c1 & c2 & c3 & c4 & E & H1 & H2 & H3 & H4);
      [lia|].
    rewrite E. append_norm.
    rewrite match_ym_padded by (assumption || lia).
    rewrite <- E, int_pad4, !int_pad2 by lia.
    cbn [mbind option_bind].
    unfold make_date, check_date_fields, MINYEAR, MAXYEAR, first_of_month.
    destruct (Z.leb_spec 1 (year dt)); [|lia].
    destruct (Z.leb_spec (year dt) 9999); [|lia].
    destruct (Z.leb_spec 1 (month dt)); [|lia].
    destruct (Z.leb_spec (month dt) 12); [|lia].
    destruct (Z.leb_spec 1 (days_in_month (year dt) (month dt))); [|lia].
    reflexivity.
  - apply orb_false_iff in Hpad as [-> Hlt]. apply Z.leb_gt in Hlt.
    unfold match_ym.
    destruct (100 <=? year dt); [|destruct (10 <=? year dt)];
      unfold pad2; append_norm; rewrite re_Y_four;
      change (Str.is_digit "-") with false;
      rewrite ?andb_false_r, ?andb_false_l; reflexivity.
Qed.

(** X18.  For a module loaded on the day [today] (after 0001-01-01),
    the day of the default of [/archive/] and of the end of
    [/archive/range] is a valid date, one day before [today].  When
    the year is printed on four digits, a request without date is not
    refused: [/historical/{currency}] asks for the first day of the
    month of [today], [/archive/] for the day before [today], and the
    default end date parses to that day.  When the year is below 1000
    and printed without leading zeros, the same request is answered
    422 without any upstream request. *)
Theorem default_dates_are_accepted pad_year today up currency :
  valid today ->
  1 < toordinal today ->
  let dflt := module_defaults pad_year today in
  valid (yesterday today)
  /\ sub_days today (yesterday today) = 1
  /\ (pad_year || (1000 <=? year today) = true ->
      events (read_historical_currency pad_year dflt up currency None)
      = [Post "https://www.bonbast.com/historical"
           [("date", strftime_ymd pad_year (first_of_month today));
            ("currency", currency)]])
  /\ (pad_year || (1000 <=? year (yesterday today)) = true ->
      events (read_archive pad_year dflt up None)
      = [Post "https://www.bonbast.com/archive"
           [("date", strftime_ymd pad_year (yesterday today))]]
      /\ strptime_ymd (range_end_date dflt) = Some (yesterday today))
  /\ (pad_year || (1000 <=? year today) = false ->
      read_historical_currency pad_year dflt up currency None
      = ([], Raise (HTTPException 422 "Invalid Date format. Expected YYYY-MM")))
  /\ (pad_year || (1000 <=? year (yesterday today)) = false ->
      read_archive pad_year dflt up None
      = ([], Raise (HTTPException 422 "Invalid Date format. Expected YYYY-MM-DD"))).
Proof.
  intros Hv Hord dflt.
  pose proof (toordinal_bounds _ Hv) as Hb.
  assert (valid (yesterday today)
          /\ toordinal (yesterday today) = toordinal today - 1) as [Hvy Hoy]
    by (unfold yesterday; apply ord2ymd_valid; lia).
  split; [exact Hvy|]. split; [unfold sub_days; lia|].
  pose proof (strptime_strftime_ym pad_year today Hv) as Hym.
  pose proof (strptime_strftime_ymd pad_year (yesterday today) Hvy) as Hymd.
  split; [|split; [|split]].
  - intros Hpad. rewrite Hpad in Hym.
    exact (read_historical_events pad_year dflt up currency
             (strftime_ym pad_year today) (first_of_month today) Hym).
  - intros Hpad. rewrite Hpad in Hymd. split; [|exact Hymd].
    exact (read_archive_events pad_year dflt up
             (strftime_ymd pad_year (yesterday today)) (yesterday today) Hymd).
  - intros Hpad. rewrite Hpad in Hym.
    exact (read_historical_invalid pad_year dflt up currency
             (strftime_ym pad_year today) Hym).
  - intros Hpad. rewrite Hpad in Hymd.
    exact (read_archive_invalid pad_year dflt up
             (strftime_ymd pad_year (yesterday today)) Hymd).
Qed.

Lemma default_dates_are_accepted_witness :
  events (read_archive false
            (module_defaults false {| year := 2024; month := 3; day := 1 |})
            sample_upstream None)
  = [Post "https://www.bonbast.com/archive" [("date", "2024-02-29")]].
Proof.
  exact (proj1 (proj1 (proj2 (proj2 (proj2
    (default_dates_are_accepted false {| year := 2024; month := 3; day := 1 |}
       sample_upstream "usd" eq_refl ltac:(vm_compute; reflexivity))))) eq_refl)).
Defined.

(** ** The integer literals of the cells *)

Lemma lstrip_keeps l c :
  In c l -> Str.is_space c = false -> In c (PyInt.lstrip l).
Proof.
  intros Hin Hc. induction l as [|x l IH]; [done|].
  cbn [PyInt.lstrip]. destruct (Str.is_space x) eqn:Hx; [|exact Hin].
  destruct Hin as [->|Hin]; [congruence|]. by apply IH.
Qed.

Lemma rstrip_keeps l c :
  In c l -> Str.is_space c = false -> In c (PyInt.rstrip l).
Proof.
  intros Hin Hc. unfold PyInt.rstrip. apply (proj1 (in_rev _ _)).
  apply lstrip_keeps; [|done]. by apply (proj1 (in_rev _ _)).
Qed.

Lemma digits_chars l : forall prev ds c,
  PyInt.digits prev l = Some ds -> In c l ->
  Str.is_digit c || Str.is_char "_" c = true.
Proof.
  induction l as [|x l IH]; intros prev ds c Hd Hin; [done|].
  cbn [PyInt.digits] in Hd.
  destruct (Str.is_digit x) eqn:Hx.
  - destruct (PyInt.digits false l) as [ds'|] eqn:Hl; [|done].
    destruct Hin as [<-|Hin]; [by rewrite Hx|by eapply IH].
  - destruct (Str.is_char "_" x) eqn:Hu; [|done].
    destruct prev; [done|].
    destruct Hin as [<-|Hin]; [by rewrite Hx, Hu|by eapply IH].
Qed.

Lemma unsigned_chars l n c :
  PyInt.unsigned l = Some n -> In c l ->
  Str.is_digit c || Str.is_char "_" c = true.
Proof.
  unfold PyInt.unsigned. destruct l as [|x l]; [done|].
  destruct (Str.is_digit x); [|done].
  destruct (PyInt.digits false (x :: l)) as [ds|] eqn:Hd; [|done].
  intros _ Hin. by eapply digits_chars.
Qed.

Lemma in_to_list c s : c ∈ Str.to_list s -> In c (Str.to_list s).
Proof. apply list_elem_of_In. Qed.

(** [int()] refuses a string with a character that no literal has. *)
Lemma int_chars s c :
  In c (Str.to_list s) -> int_char c = false -> PyInt.int s = None.
Proof.
  intros Hin Hc. unfold int_char in Hc.
  apply orb_false_iff in Hc as [Hc Hplus].
  apply orb_false_iff in Hc as [Hc Hminus].
  apply orb_false_iff in Hc as [Hc Hus].
  apply orb_false_iff in Hc as [Hdig Hsp].
  assert (In c (PyInt.rstrip (PyInt.lstrip (Str.to_list s)))) as Hin'
    by (apply rstrip_keeps; [apply lstrip_keeps|]; done).
  unfold PyInt.int.
  destruct (PyInt.rstrip (PyInt.lstrip (Str.to_list s))) as [|x r]; [done|].
  assert (forall l n, PyInt.unsigned l = Some n -> In c l -> False) as Hno.
  { intros l n Hl Hcl. pose proof (unsigned_chars l n c Hl Hcl) as H.
    rewrite Hdig, Hus in H. done. }
  destruct (Str.is_char "-" x) eqn:Hxm.
  - destruct (PyInt.unsigned r) as [n|] eqn:Hr; [|done].
    destruct Hin' as [->|Hin']; [congruence|]. destruct (Hno r n Hr Hin').
  - destruct (Str.is_char "+" x) eqn:Hxp.
    + destruct (PyInt.unsigned r) as [n|] eqn:Hr; [|done].
      destruct Hin' as [->|Hin']; [congruence|]. destruct (Hno r n Hr Hin').
    + destruct (PyInt.unsigned (x :: r)) as [n|] eqn:Hr; [|done].
      destruct (Hno (x :: r) n Hr Hin').
Qed.

Lemma to_list_of_list l : Str.to_list (Str.of_list l) = l.
Proof. induction l as [|c l IH]; [done|]. cbn. by rewrite IH. Qed.

Lemma lstrip_spaces sp l :
  Forall (fun c => Str.is_space c = true) sp ->
  PyInt.lstrip (sp ++ l) = PyInt.lstrip l.
Proof.
  induction 1 as [|c sp Hc _ IH]; [done|].
  cbn [app PyInt.lstrip]. by rewrite Hc.
Qed.

Lemma digits_decimal ds :
  Forall (fun d => 0 <= d <= 9) ds ->
  PyInt.digits false (digit_char <$> ds) = Some ds.
Proof.
  induction 1 as [|d ds Hd _ IH]; [done|].
  cbn [fmap list_fmap PyInt.digits].
  rewrite is_digit_digit_char, IH, digit_val_digit_char by done. done.
Qed.

Lemma value_from acc ds :
  0 <= acc -> Forall (fun d => 0 <= d <= 9) ds ->
  0 <= fold_left (fun acc d => 10 * acc + d) ds acc
  /\ (fold_left (fun acc d => 10 * acc + d) ds acc = 0
      <-> acc = 0 /\ Forall (fun d => d = 0) ds).
Proof.
  intros Hacc Hds. revert acc Hacc.
  induction Hds as [|d ds Hd _ IH]; intros acc Hacc; cbn [fold_left].
  - split; [done|]. split; [by intros ->|by intros [-> _]].
  - destruct (IH (10 * acc + d) ltac:(lia)) as [H0 Hz]. split; [done|].
    rewrite Hz. split.
    + intros [Ha Hf]. split; [lia|]. constructor; [lia|done].
    + intros [-> Hf]. apply Forall_cons in Hf as [-> Hf]. done.
Qed.

(** [int()] of decimal digits between blanks. *)
Lemma int_decimal sp1 ds sp2 :
  Forall (fun c => Str.is_space c = true) sp1 ->
  Forall (fun c => Str.is_space c = true) sp2 ->
  Forall (fun d => 0 <= d <= 9) ds ->
  (0 < length ds)%nat -> Z.of_nat (length ds) <= PyInt.max_str_digits ->
  PyInt.int (decimal sp1 ds sp2) = Some (PyInt.value ds).
Proof.
  intros H1 H2 Hds Hne Hmax. unfold PyInt.int, decimal.
  rewrite to_list_of_list, lstrip_spaces by done.
  assert (forall l : list Z, (0 < length l)%nat -> Forall (fun d => 0 <= d <= 9) l ->
            PyInt.lstrip (digit_char <$> l) = digit_char <$> l) as Hhead.
  { intros [|d l] Hl Hf; [cbn in Hl; lia|].
    apply Forall_cons in Hf as [Hd _]. cbn [fmap list_fmap PyInt.lstrip].
    by rewrite is_space_digit_char. }
  assert (PyInt.lstrip ((digit_char <$> ds) ++ sp2) = (digit_char <$> ds) ++ sp2)%list as ->.
  { destruct ds as [|d l]; [cbn in Hne; lia|].
    apply Forall_cons in Hds as [Hd _]. cbn [fmap list_fmap app PyInt.lstrip].
    by rewrite is_space_digit_char. }
  unfold PyInt.rstrip. rewrite rev_app_distr, lstrip_spaces
    by (by apply List.Forall_rev).
  rewrite <- map_rev. change (map digit_char (rev ds)) with (digit_char <$> rev ds).
  rewrite Hhead; first last.
  { by apply List.Forall_rev. }
  { by rewrite length_rev. }
  change (digit_char <$> rev ds) with (map digit_char (rev ds)).
  rewrite map_rev, rev_involutive.
  pose proof (digits_decimal ds Hds) as Hdigits.
  destruct ds as [|d l]; [cbn in Hne; lia|].
  apply Forall_cons in Hds as [Hd _].
  cbn [map]. rewrite is_minus_digit_char, is_plus_digit_char by done.
  unfold PyInt.unsigned. rewrite is_digit_digit_char by done.
  change (digit_char d :: map digit_char l) with (digit_char <$> d :: l).
  rewrite Hdigits.
  destruct (Z.ltb_spec PyInt.max_str_digits (Z.of_nat (length (d :: l)))); [lia|done].
Qed.

Example int_of_a_padded_cell :
  decimal [" "%char] [5; 8; 9; 0; 0] ["010"%char; " "%char]
  = String " " ("58900" ++ String "010" " ")
  /\ PyInt.int (decimal [" "%char] [5; 8; 9; 0; 0] ["010"%char; " "%char])
     = Some 58900.
Proof. split; reflexivity. Qed.

Lemma value_positive ds :
  Forall (fun d => 0 <= d <= 9) ds ->
  (Exists (fun d => d <> 0) ds -> 0 < PyInt.value ds)
  /\ (Forall (fun d => d = 0) ds -> PyInt.value ds = 0).
Proof.
  intros Hds. destruct (value_from 0 ds ltac:(lia) Hds) as [H0 Hz].
  fold (PyInt.value ds) in H0, Hz. split.
  - intros Hex. destruct (Z.eq_dec (PyInt.value ds) 0) as [E|]; [|lia].
    apply Hz in E as [_ Hall]. apply Exists_exists in Hex as (d & Hin & Hd).
    rewrite Forall_forall in Hall. destruct (Hd (Hall d Hin)).
  - intros Hall. by apply Hz.
Qed.

(** X19.  What the handlers take for a number in a sell or buy cell
    (strings of code points below 256).  A cell with a character that
    is not a digit, an underscore, a sign or white space (a thousands
    separator, a decimal point, a letter) makes the row be skipped.  A
    cell of 1 to 4300 decimal digits between white space is read as its
    decimal value: with a digit other than zero in both cells the row is
    stored with these values, and with only zeros in one of them the row
    is skipped. *)
Theorem cells_are_integer_literals :
  (forall prices date s b rest c,
     In c (Str.to_list s ++ Str.to_list b)%list -> int_char c = false ->
     historical_row prices (date :: s :: b :: rest) = Ok prices)
  /\ (forall prices currency name s b rest c,
        In c (Str.to_list s ++ Str.to_list b)%list -> int_char c = false ->
        archive_row prices (currency :: name :: s :: b :: rest) = Ok prices)
  /\ (forall sp1 sp2 sp3 sp4 ds_sell ds_buy,
        blanks sp1 -> blanks sp2 -> blanks sp3 -> blanks sp4 ->
        decimal_digits ds_sell -> decimal_digits ds_buy ->
        let s := decimal sp1 ds_sell sp2 in
        let b := decimal sp3 ds_buy sp4 in
        (Exists (fun d => d <> 0) ds_sell -> Exists (fun d => d <> 0) ds_buy ->
         (forall prices date rest,
            historical_row prices (date :: s :: b :: rest)
            = Ok (<[date := {| sell := PyInt.value ds_sell; buy := PyInt.value ds_buy |}]>
                    prices))
         /\ (forall prices currency name rest,
               archive_row prices (currency :: name :: s :: b :: rest)
               = Ok (<[Str.lower currency
                       := Quote {| sell := PyInt.value ds_sell; buy := PyInt.value ds_buy |}]>
                       prices)))
        /\ (Forall (fun d => d = 0) ds_sell \/ Forall (fun d => d = 0) ds_buy ->
            (forall prices date rest,
               historical_row prices (date :: s :: b :: rest) = Ok prices)
            /\ (forall prices currency name rest,
                  archive_row prices (currency :: name :: s :: b :: rest) = Ok prices))).
Proof.
  assert (forall s b c, In c (Str.to_list s ++ Str.to_list b)%list -> int_char c = false ->
            PyInt.int s = None \/ PyInt.int b = None) as Hbad.
  { intros s b c Hin Hc. apply in_app_or in Hin as [Hin|Hin];
      [left|right]; by apply (int_chars _ c). }
  split; [|split].
  - intros prices date s b rest c Hin Hc. rewrite historical_row_cells.
    destruct (Hbad s b c Hin Hc) as [-> | ->]; [done|].
    by destruct (PyInt.int s).
  - intros prices currency name s b rest c Hin Hc. rewrite archive_row_cells.
    destruct (Hbad s b c Hin Hc) as [-> | ->]; [done|].
    by destruct (PyInt.int s).
  - intros sp1 sp2 sp3 sp4 ds_sell ds_buy H1 H2 H3 H4 (Hs & Hsl & Hsm) (Hb & Hbl & Hbm) s b.
    assert (PyInt.int s = Some (PyInt.value ds_sell)) as Es by (by apply int_decimal).
    assert (PyInt.int b = Some (PyInt.value ds_buy)) as Eb by (by apply int_decimal).
    destruct (value_positive ds_sell Hs) as [Hsp Hsz].
    destruct (value_positive ds_buy Hb) as [Hbp Hbz].
    split.
    + intros Hes Heb. specialize (Hsp Hes). specialize (Hbp Heb).
      split; intros; [rewrite historical_row_cells|rewrite archive_row_cells];
        rewrite Es, Eb;
        destruct (Z.ltb_spec 0 (PyInt.value ds_sell)); try lia;
        destruct (Z.ltb_spec 0 (PyInt.value ds_buy)); try lia; reflexivity.
    + intros Hz.
      assert ((0 <? PyInt.value ds_sell) && (0 <? PyInt.value ds_buy) = false) as Hneg.
      { destruct Hz as [Hz|Hz]; [rewrite (Hsz Hz)|rewrite (Hbz Hz)];
          [done|by rewrite andb_false_r]. }
      split; intros; [rewrite historical_row_cells|rewrite archive_row_cells];
        by rewrite Es, Eb, Hneg.
Qed.
